(** * Smart-shoper: store price comparison, ranking and session state

    A shallow embedding of the computational parts of the application:
    - [src/components/PriceParser.tsx]: retailer universe, per-store totals,
      ranking, winner banner and the per-row best-price highlighter;
    - [src/services/gemini.ts] ([simulatePriceParsing]): best-price
      post-processing of the estimated quotes;
    - [src/App.tsx] ([handlePlanUpdate], [handleStartParsing],
      [handleTabChange], the API-key modal): the session-state transitions;
    - [src/components/MenuPlanner.tsx] ([handleSendMessage]): defensive
      validation of the tool-call arguments;
    - [src/components/Analytics.tsx]: the budget distribution buckets.

    Modelling conventions.
    - A JavaScript string is the list of its UTF-16 code units ([list N]);
      [===] is equality of these lists and the default [Array.prototype.sort]
      order is the lexicographic order on code units.
    - The type of JavaScript numbers is a parameter of the records that
      hold prices, and the additions of the source go through an interface
      ([Arith.t]) of which no law is assumed: what is proved of a sum holds
      for IEEE 754 doubles ([double]) as for exact integer amounts
      ([exact]). Counters are integers. Comparisons of prices (ranking,
      minimum, best price) are stated at exact integer amounts.
    - [Array.prototype.sort] is stable (ECMAScript 2019); it is modelled by a
      stable insertion sort, and [stable_ranking_unique] shows that for the
      ranking comparator every stable sorting procedure returns the same
      array.
    - A raised [TypeError] is an explicit [Throw] result. *)

From Stdlib Require Import String Ascii PrimFloat.
From Stdlib Require Import List ZArith NArith Lia Bool.
From Stdlib Require Import Permutation Sorting.Sorted FinFun DecimalNat.

#[local] Set Warnings "-inexact-float".
Import ListNotations.

Local Open Scope Z_scope.

(** ** JavaScript strings *)

Module JsString.

Definition t : Type := list N.

(** [a === b] on strings. *)
Fixpoint eqb (a b : t) : bool :=
  match a, b with
  | [], [] => true
  | c :: a', d :: b' => N.eqb c d && eqb a' b'
  | _, _ => false
  end.

(** Code-unit-wise comparison, as used by [<] on strings and by the default
    sort order. *)
Definition compare (a b : t) : comparison := list_compare N.compare a b.

Definition ltb (a b : t) : bool :=
  match compare a b with Lt => true | _ => false end.

Definition lt (a b : t) : Prop := compare a b = Lt.

(** The code units of a literal: the UTF-8 bytes of the literal as it is
    written in this file are decoded to UTF-16. *)
Fixpoint decode (bytes : list N) : t :=
  match bytes with
  | [] => []
  | b0 :: r0 =>
      if (b0 <? 128)%N then b0 :: decode r0
      else if (b0 <? 224)%N then
        match r0 with
        | b1 :: r1 => ((b0 - 192) * 64 + (b1 - 128))%N :: decode r1
        | [] => [65533%N]
        end
      else if (b0 <? 240)%N then
        match r0 with
        | b1 :: b2 :: r2 =>
            ((b0 - 224) * 4096 + (b1 - 128) * 64 + (b2 - 128))%N :: decode r2
        | _ => [65533%N]
        end
      else
        match r0 with
        | b1 :: b2 :: b3 :: r3 =>
            let cp := ((b0 - 240) * 262144 + (b1 - 128) * 4096
                       + (b2 - 128) * 64 + (b3 - 128) - 65536)%N in
            (55296 + cp / 1024)%N :: (56320 + cp mod 1024)%N :: decode r3
        | _ => [65533%N]
        end
  end.

Definition of_literal (s : String.string) : t :=
  decode (map Ascii.N_of_ascii (String.list_ascii_of_string s)).

Fixpoint startsWith (s p : t) : bool :=
  match p, s with
  | [], _ => true
  | _ :: _, [] => false
  | c :: p', d :: s' => N.eqb c d && startsWith s' p'
  end.

(** [s.includes(sub)] *)
Fixpoint includes (s sub : t) : bool :=
  startsWith s sub ||
  match s with
  | [] => false
  | _ :: s' => includes s' sub
  end.

(** Decimal digits of a natural number, as code units. *)
Fixpoint digits (d : Decimal.uint) : t :=
  match d with
  | Decimal.Nil => []
  | Decimal.D0 d => 48%N :: digits d
  | Decimal.D1 d => 49%N :: digits d
  | Decimal.D2 d => 50%N :: digits d
  | Decimal.D3 d => 51%N :: digits d
  | Decimal.D4 d => 52%N :: digits d
  | Decimal.D5 d => 53%N :: digits d
  | Decimal.D6 d => 54%N :: digits d
  | Decimal.D7 d => 55%N :: digits d
  | Decimal.D8 d => 56%N :: digits d
  | Decimal.D9 d => 57%N :: digits d
  end.

(** [idx.toString()] for an array index. *)
Definition toString (n : nat) : t := digits (Nat.to_uint n).

End JsString.

Arguments JsString.of_literal s%_string.

Abbreviation jsstring := JsString.t.
Abbreviation str := JsString.of_literal.

(** ** Data model ([types.ts]) *)

(** In the records below [num] is the type of numbers; [t] is the record
    at exact integer amounts. *)

Module StorePrice.
Record over (num : Type) : Type := mk
  { storeName : jsstring;
    price : num;
    inStock : bool;
    productName : jsstring;
    weight : jsstring }.
Arguments mk {num} storeName price inStock productName weight.
Arguments storeName {num} o.
Arguments price {num} o.
Arguments inStock {num} o.
Arguments productName {num} o.
Arguments weight {num} o.
Abbreviation t := (over Z).
End StorePrice.

Module ShoppingItem.
Record over (num : Type) : Type := mk
  { id : jsstring;
    name : jsstring;
    originalAmount : jsstring;
    prices : list (StorePrice.over num);
    bestStore : option jsstring;
    bestPrice : option num }.
Arguments mk {num} id name originalAmount prices bestStore bestPrice.
Arguments id {num} o.
Arguments name {num} o.
Arguments originalAmount {num} o.
Arguments prices {num} o.
Arguments bestStore {num} o.
Arguments bestPrice {num} o.
Abbreviation t := (over Z).
End ShoppingItem.

Inductive AppStatus : Type := IDLE | PLANNING | PARSING | READY | ERROR.

Definition AppStatus_eqb (a b : AppStatus) : bool :=
  match a, b with
  | IDLE, IDLE | PLANNING, PLANNING | PARSING, PARSING
  | READY, READY | ERROR, ERROR => true
  | _, _ => false
  end.

(** The object literal [{ storeName, totalCost, missingItems }]. *)
Module StoreTotal.
Record over (num : Type) : Type := mk
  { storeName : jsstring;
    totalCost : num;
    missingItems : Z }.
Arguments mk {num} storeName totalCost missingItems.
Arguments storeName {num} o.
Arguments totalCost {num} o.
Arguments missingItems {num} o.
Abbreviation t := (over Z).
End StoreTotal.

(** ** Arithmetic of the numbers

    What the source does with prices when it adds them up: the literal [0],
    [+] and the truthiness test of [||]. *)

Module Arith.
Record t (num : Type) : Type := mk
  { zero : num;
    add : num -> num -> num;
    (** [0], [-0] and [NaN] are falsy *)
    falsy : num -> bool }.
Arguments mk {num} zero add falsy.
Arguments zero {num} t.
Arguments add {num} t _ _.
Arguments falsy {num} t _.
End Arith.

(** Exact integer amounts. *)
Definition exact : Arith.t Z := Arith.mk 0 Z.add (fun z => z =? 0).

(** IEEE 754 binary64, the numbers of the language. *)
Definition double : Arith.t float :=
  Arith.mk 0%float PrimFloat.add
    (fun x => negb (PrimFloat.ltb x 0 || PrimFloat.ltb 0 x)).

(** [l] added up from [0], left to right. *)
Definition sumWith {num : Type} (A : Arith.t num) (l : list num) : num :=
  fold_left (Arith.add A) l (Arith.zero A).

(** ** Built-ins of the language used by the source *)

Section Builtins.

Context {A : Type}.

(** [Array.from(new Set(l))]: a [Set] keeps one copy of each value, in
    insertion order. *)
Definition Set_add (eqb : A -> A -> bool) (s : list A) (x : A) : list A :=
  if existsb (eqb x) s then s else s ++ [x].

Definition Array_from_Set (eqb : A -> A -> bool) (l : list A) : list A :=
  fold_left (Set_add eqb) l [].

(** [Array.prototype.sort(cmp)]: [cmp a b < 0] puts [a] first, [cmp a b > 0]
    puts [b] first and elements comparing equal keep their order. *)
Variable cmp : A -> A -> Z.

Fixpoint insert (x : A) (l : list A) : list A :=
  match l with
  | [] => [x]
  | y :: l' => if cmp x y <=? 0 then x :: y :: l' else y :: insert x l'
  end.

Definition sort (l : list A) : list A := fold_right insert [] l.

End Builtins.

(** The comparison used by [sort()] without a comparator, on strings. *)
Definition defaultCompare (x y : jsstring) : Z :=
  if JsString.ltb x y then -1
  else if JsString.ltb y x then 1
  else 0.

(** [Math.min(p, ...ps)] on a non-empty argument list. *)
Definition Math_min (p : Z) (ps : list Z) : Z := fold_left Z.min ps p.

(** [l.find(pred)] is [List.find]: the first element satisfying [pred], or
    [undefined] ([None]). *)

(** Exceptions are explicit results. *)
Inductive exn : Type := TypeError | ApiError.

Inductive result (A : Type) : Type :=
| Ok (a : A)
| Throw (e : exn).

Arguments Ok {A} a.
Arguments Throw {A} e.

Definition Zsum (l : list Z) : Z := fold_right Z.add 0 l.

(** ** Store aggregator ([PriceParser.tsx], lines 53-82) *)

Definition allStoreNamesOf {num : Type} (items : list (ShoppingItem.over num))
    : list jsstring :=
  sort defaultCompare
    (Array_from_Set JsString.eqb
       (flat_map (fun item => map StorePrice.storeName (ShoppingItem.prices item))
          items)).

(** The universe of a list at exact integer amounts. *)
Definition allStoreNames (items : list ShoppingItem.t) : list jsstring :=
  allStoreNamesOf items.

Section Aggregator.

Context {num : Type} (A : Arith.t num).

(** The body of [items.forEach] for one store: the pair is
    [(totalCost, missingItems)]. *)
Definition accumulateWith (storeName : jsstring) (acc : num * Z)
    (item : ShoppingItem.over num) : num * Z :=
  let '(totalCost, missingItems) := acc in
  match find (fun p => JsString.eqb (StorePrice.storeName p) storeName)
          (ShoppingItem.prices item) with
  | Some priceObj =>
      if StorePrice.inStock priceObj
      then (Arith.add A totalCost (StorePrice.price priceObj), missingItems)
      else (totalCost, missingItems + 1)
  | None => (totalCost, missingItems + 1)
  end.

Definition storeTotalWith (items : list (ShoppingItem.over num))
    (storeName : jsstring) : StoreTotal.over num :=
  let '(totalCost, missingItems) :=
    fold_left (accumulateWith storeName) items (Arith.zero A, 0) in
  StoreTotal.mk storeName totalCost missingItems.

Definition storeTotalsWith (items : list (ShoppingItem.over num))
    : list (StoreTotal.over num) :=
  map (storeTotalWith items) (allStoreNamesOf items).

End Aggregator.

(** The aggregation at exact integer amounts. *)
Definition accumulate (storeName : jsstring) (acc : Z * Z)
    (item : ShoppingItem.t) : Z * Z :=
  accumulateWith exact storeName acc item.

Definition storeTotal (items : list ShoppingItem.t) (storeName : jsstring)
    : StoreTotal.t :=
  storeTotalWith exact items storeName.

Definition storeTotals (items : list ShoppingItem.t) : list StoreTotal.t :=
  storeTotalsWith exact items.

(** ** Ranking policy *)

Definition compareStores (a b : StoreTotal.t) : Z :=
  if negb (StoreTotal.missingItems a =? StoreTotal.missingItems b)
  then StoreTotal.missingItems a - StoreTotal.missingItems b
  else StoreTotal.totalCost a - StoreTotal.totalCost b.

Definition sortStores (totals : list StoreTotal.t) : list StoreTotal.t :=
  sort compareStores totals.

Definition sortedStores (items : list ShoppingItem.t) : list StoreTotal.t :=
  sortStores (storeTotals items).

(** [sortedStores[0]]: [undefined] ([None]) on an empty array. *)
Definition winnerOf (sorted : list StoreTotal.t) : option StoreTotal.t :=
  nth_error sorted 0.

Definition winner (items : list ShoppingItem.t) : option StoreTotal.t :=
  winnerOf (sortedStores items).

(** ** The comparison view ([PriceParser.tsx], lines 52-188) *)

(** [minPrice] of a table row. *)
Definition minPrice (item : ShoppingItem.t) : Z :=
  let prices :=
    map StorePrice.price (filter StorePrice.inStock (ShoppingItem.prices item)) in
  match prices with
  | [] => 0
  | p :: ps => Math_min p ps
  end.

(** The quote shown in the cell of [item] and [store]. *)
Definition cellQuote (item : ShoppingItem.t) (store : jsstring)
    : option StorePrice.t :=
  find (fun pr => JsString.eqb (StorePrice.storeName pr) store)
    (ShoppingItem.prices item).

(** [isBest = p && p.inStock && p.price === minPrice] *)
Definition isBest (item : ShoppingItem.t) (store : jsstring) : bool :=
  match cellQuote item store with
  | Some p => StorePrice.inStock p && (StorePrice.price p =? minPrice item)
  | None => false
  end.

Module Cell.
Record t : Type := mk
  { store : jsstring;
    quote : option StorePrice.t;
    best : bool }.
End Cell.

Module Row.
Record t : Type := mk
  { item : ShoppingItem.t;
    cells : list Cell.t }.
End Row.

Module Banner.
Record t : Type := mk
  { recommended : jsstring;
    (** [Some n]: "not found: n"; [None]: "everything in stock" *)
    notFound : option Z;
    basketCost : Z }.
End Banner.

Module Card.
Record t : Type := mk
  { total : StoreTotal.t;
    (** [t.storeName === winner.storeName] *)
    highlighted : bool }.
End Card.

Inductive view : Type :=
| ComparisonView (banner : Banner.t) (cards : list Card.t)
    (header : list jsstring) (rows : list Row.t)
| ProgressLog
| StartPrompt.

Definition tableRow (stores : list jsstring) (item : ShoppingItem.t) : Row.t :=
  Row.mk item
    (map (fun store => Cell.mk store (cellQuote item store) (isBest item store))
       stores).

(** The component body after the hooks. Reading [winner.storeName] on an
    [undefined] winner raises a [TypeError]. *)
Definition PriceParser (status : AppStatus) (items : list ShoppingItem.t)
    : result view :=
  if AppStatus_eqb status READY && (0 <? length items)%nat then
    let stores := allStoreNames items in
    let sorted := sortedStores items in
    match winnerOf sorted with
    | None => Throw TypeError
    | Some w =>
        Ok (ComparisonView
              (Banner.mk (StoreTotal.storeName w)
                 (if StoreTotal.missingItems w >? 0
                  then Some (StoreTotal.missingItems w) else None)
                 (StoreTotal.totalCost w))
              (map (fun t =>
                      Card.mk t (JsString.eqb (StoreTotal.storeName t)
                                   (StoreTotal.storeName w)))
                 sorted)
              stores
              (map (tableRow stores) items))
    end
  else if AppStatus_eqb status PARSING then Ok ProgressLog
  else Ok StartPrompt.

(** ** Price-estimation post-processing ([simulatePriceParsing]) *)

(** An element of the parsed response: [JSON.parse(text) as ShoppingItem[]]
    casts it to [ShoppingItem], so it is a shopping item and may carry the
    optional [bestStore] and [bestPrice]. *)
Module ParsedItem.
Abbreviation t := ShoppingItem.t.
Abbreviation mk := (@ShoppingItem.mk Z).
Abbreviation id := (@ShoppingItem.id Z).
Abbreviation name := (@ShoppingItem.name Z).
Abbreviation originalAmount := (@ShoppingItem.originalAmount Z).
Abbreviation prices := (@ShoppingItem.prices Z).
End ParsedItem.

(** The reducer [(prev, curr) => prev.price < curr.price ? prev : curr]. *)
Definition cheaper (prev curr : StorePrice.t) : StorePrice.t :=
  if StorePrice.price prev <? StorePrice.price curr then prev else curr.

(** The callback of [data.map]; [reduce] without an initial value starts
    from the first element. *)
Definition postProcess (item : ParsedItem.t) : ShoppingItem.t :=
  let stockItems := filter StorePrice.inStock (ParsedItem.prices item) in
  match stockItems with
  | first :: rest =>
      let best := fold_left cheaper rest first in
      (* { ...item, bestStore: best.storeName, bestPrice: best.price } *)
      ShoppingItem.mk (ParsedItem.id item) (ParsedItem.name item)
        (ParsedItem.originalAmount item) (ParsedItem.prices item)
        (Some (StorePrice.storeName best)) (Some (StorePrice.price best))
  | [] => item
  end.

(** The outcome of the request: a raised error, an empty text ([None]) or
    the parsed array. *)
Definition simulatePriceParsing (response : result (option (list ParsedItem.t)))
    : result (list ShoppingItem.t) :=
  match response with
  | Throw e => Throw e
  | Ok None => Ok []
  | Ok (Some data) => Ok (map postProcess data)
  end.

(** ** Session state ([App.tsx]) *)

Module Ingredient.
Record t : Type := mk
  { name : jsstring;
    amount : jsstring;
    category : jsstring }.
End Ingredient.

Module Meal.
Record t : Type := mk
  { day : jsstring;
    breakfast : jsstring;
    lunch : jsstring;
    dinner : jsstring;
    snackAfternoon : jsstring;
    snackEvening : jsstring;
    ingredients : list Ingredient.t }.
End Meal.

(** An entry of [AIPlanResponse.shoppingList]. *)
Module PlanItem.
Record t : Type := mk
  { name : jsstring;
    amount : jsstring;
    estimatedPrice : Z }.
End PlanItem.

Module AIPlanResponse.
Record t : Type := mk
  { meals : list Meal.t;
    shoppingList : list PlanItem.t;
    totalEstimatedCost : Z }.
End AIPlanResponse.

Module UserPreferences.
Record t : Type := mk
  { familySize : Z;
    budgetWeekly : Z;
    dietaryRestrictions : jsstring;
    city : jsstring }.
End UserPreferences.

Inductive Tab : Type := menu | prices | analytics.

(** [arr.map((x, idx) => f x idx)] *)
Fixpoint mapi_from {A B : Type} (i : nat) (f : A -> nat -> B) (l : list A)
    : list B :=
  match l with
  | [] => []
  | x :: l' => f x i :: mapi_from (S i) f l'
  end.

Definition mapi {A B : Type} (f : A -> nat -> B) (l : list A) : list B :=
  mapi_from 0 f l.

Module App.

(** The [useState] cells of the component; the chat session is a handle
    of the external client and the chat transcript is display text, no
    action below touches them. *)
Record state : Type := mk
  { apiKey : jsstring;
    activeTab : Tab;
    status : AppStatus;
    currentPlan : option AIPlanResponse.t;
    shoppingList : list ShoppingItem.t;
    preferences : UserPreferences.t }.

Definition setStatus (v : AppStatus) (s : state) : state :=
  mk (apiKey s) (activeTab s) v (currentPlan s) (shoppingList s)
    (preferences s).

Definition setCurrentPlan (v : option AIPlanResponse.t) (s : state) : state :=
  mk (apiKey s) (activeTab s) (status s) v (shoppingList s) (preferences s).

Definition setShoppingList (v : list ShoppingItem.t) (s : state) : state :=
  mk (apiKey s) (activeTab s) (status s) (currentPlan s) v (preferences s).

Definition init : state :=
  mk [] menu IDLE None []
    (UserPreferences.mk 4 10000 [] (str "Екатеринбург")).

Definition skeleton (item : PlanItem.t) (idx : nat) : ShoppingItem.t :=
  ShoppingItem.mk (JsString.toString idx) (PlanItem.name item)
    (PlanItem.amount item) [] None None.

Definition handlePlanUpdate (newPlan : AIPlanResponse.t) (s : state) : state :=
  let s := setCurrentPlan (Some newPlan) s in
  if (0 <? length (AIPlanResponse.shoppingList newPlan))%nat then
    let skeletonItems := mapi skeleton (AIPlanResponse.shoppingList newPlan) in
    setStatus IDLE (setShoppingList skeletonItems s)
  else s.

(** [handleStartParsing], given the outcome of the awaited request. *)
Definition handleStartParsing
    (response : result (option (list ParsedItem.t))) (s : state) : state :=
  let s := setStatus PARSING s in
  match simulatePriceParsing response with
  | Ok pricedItems => setStatus READY (setShoppingList pricedItems s)
  | Throw _ => setStatus ERROR s
  end.

(** What the "prices" tab shows. *)
Definition pricesTab (s : state) : result view :=
  PriceParser (status s) (shoppingList s).

Definition setActiveTab (v : Tab) (s : state) : state :=
  mk (apiKey s) v (status s) (currentPlan s) (shoppingList s) (preferences s).

Definition handleTabChange (tab : Tab) (s : state) : state :=
  setActiveTab tab s.

(** [handleStartParsing] up to its [await] ... *)
Definition beginParsing (s : state) : state := setStatus PARSING s.

(** ... and from the outcome of the awaited request on; other handlers may
    run in between. *)
Definition endParsing
    (response : result (option (list ParsedItem.t))) (s : state) : state :=
  match simulatePriceParsing response with
  | Ok pricedItems => setStatus READY (setShoppingList pricedItems s)
  | Throw _ => setStatus ERROR s
  end.

(** What can happen to the session state. *)
Inductive event : Type :=
| PlanUpdated (newPlan : AIPlanResponse.t)
| TabChanged (tab : Tab)
| ParsingStarted
| ParsingEnded (response : result (option (list ParsedItem.t))).

Definition step (s : state) (e : event) : state :=
  match e with
  | PlanUpdated newPlan => handlePlanUpdate newPlan s
  | TabChanged tab => handleTabChange tab s
  | ParsingStarted => beginParsing s
  | ParsingEnded response => endParsing response s
  end.

Definition run (events : list event) (s : state) : state :=
  fold_left step events s.

End App.

(** ** Validation of tool-call arguments ([handleSendMessage]) *)

(** A value of type [any]. *)
#[local] Set Warnings "-register-all".
Inductive jsval : Type :=
| JUndefined
| JNull
| JBool (b : bool)
| JNumber (z : Z)
| JString (s : jsstring)
| JArray (elems : list jsval)
| JObject (props : list (jsstring * jsval)).

Definition Array_isArray (v : jsval) : bool :=
  match v with JArray _ => true | _ => false end.

(** [typeof v === 'number'] *)
Definition isNumber (v : jsval) : bool :=
  match v with JNumber _ => true | _ => false end.

Fixpoint lookup (key : jsstring) (props : list (jsstring * jsval)) : jsval :=
  match props with
  | [] => JUndefined
  | (k, v) :: props' => if JsString.eqb k key then v else lookup key props'
  end.

(** [v.key] for one of the property names read by the source (none of them
    is a built-in property of a primitive or of an array): reading a
    property of [undefined] or [null] raises a [TypeError]. *)
Definition getProp (v : jsval) (key : jsstring) : result jsval :=
  match v with
  | JUndefined | JNull => Throw TypeError
  | JObject props => Ok (lookup key props)
  | _ => Ok JUndefined
  end.

Definition bind {A B : Type} (r : result A) (k : A -> result B) : result B :=
  match r with
  | Ok a => k a
  | Throw e => Throw e
  end.

Notation "x <- r ;; k" := (bind r (fun x => k))
  (at level 61, r at next level, right associativity).

(** The object literal [planData], whose fields hold unchecked values. *)
Module PlanData.
Record t : Type := mk
  { meals : jsval;
    shoppingList : jsval;
    totalEstimatedCost : jsval }.
End PlanData.

Module FunctionCall.
Record t : Type := mk
  { name : jsstring;
    args : jsval }.
End FunctionCall.

Definition buildPlanData (args : jsval) : result PlanData.t :=
  meals <- getProp args (str "meals") ;;
  let safeMeals := if Array_isArray meals then meals else JArray [] in
  shoppingList <- getProp args (str "shoppingList") ;;
  let safeShoppingList :=
    if Array_isArray shoppingList then shoppingList else JArray [] in
  cost <- getProp args (str "totalEstimatedCost") ;;
  Ok (PlanData.mk safeMeals safeShoppingList
        (if isNumber cost then cost else JNumber 0)).

Section MenuPlanner.

(** The [onPlanUpdated] prop; it may raise. *)
Variable onPlanUpdated : PlanData.t -> result unit.

(** One iteration of [for (const call of response.functionCalls)]: the
    stored plan afterwards, and whether the iteration raised. *)
Definition handleCall (call : FunctionCall.t) (currentPlan : option PlanData.t)
    : option PlanData.t * result unit :=
  if JsString.eqb (FunctionCall.name call) (str "update_meal_plan") then
    match buildPlanData (FunctionCall.args call) with
    | Throw e => (currentPlan, Throw e)
    | Ok planData => (Some planData, onPlanUpdated planData)
    end
  else (currentPlan, Ok tt).

(** The whole loop; an exception leaves it (and is caught by the
    enclosing [try]). *)
Fixpoint handleCalls (calls : list FunctionCall.t)
    (currentPlan : option PlanData.t) : option PlanData.t * result unit :=
  match calls with
  | [] => (currentPlan, Ok tt)
  | call :: calls' =>
      match handleCall call currentPlan with
      | (plan', Ok _) => handleCalls calls' plan'
      | (plan', Throw e) => (plan', Throw e)
      end
  end.

End MenuPlanner.

(** *** The update callback of [App] on the unchecked plan

    [handleSendMessage] builds the plan from [args: any], so
    [handlePlanUpdate] runs on values that nothing has checked beyond the
    three fields. *)




Section PlanUpdate.

(** [v.length > 0] for an object [v] with the given properties: the
    coercions of the language decide, and may raise. *)
Variable lengthPositive : list (jsstring * jsval) -> result bool.




End PlanUpdate.

(** ** Budget distribution ([Analytics.tsx]) *)

Module Bucket.
Record over (num : Type) : Type := mk
  { name : jsstring;
    value : num }.
Arguments mk {num} name value.
Arguments name {num} o.
Arguments value {num} o.
Abbreviation t := (over Z).
End Bucket.

Section Analytics.

Context {num : Type} (A : Arith.t num).

(** [String.prototype.toLowerCase], the Unicode case mapping of the
    language. *)
Variable toLowerCase : jsstring -> jsstring.

(** [data[k].value += price] *)
Fixpoint addAt (k : nat) (price : num) (data : list (Bucket.over num))
    : list (Bucket.over num) :=
  match data, k with
  | [], _ => []
  | b :: data', O =>
      Bucket.mk (Bucket.name b) (Arith.add A (Bucket.value b) price) :: data'
  | b :: data', S k' => b :: addAt k' price data'
  end.

Definition data0 : list (Bucket.over num) :=
  [ Bucket.mk (str "Мясо/Рыба") (Arith.zero A);
    Bucket.mk (str "Овощи/Фрукты") (Arith.zero A);
    Bucket.mk (str "Молочка") (Arith.zero A);
    Bucket.mk (str "Бакалея") (Arith.zero A) ].

(** [item.bestPrice || 0]: an absent price and a falsy price give [0]. *)
Definition bestPriceOr0 (item : ShoppingItem.over num) : num :=
  match ShoppingItem.bestPrice item with
  | Some p => if Arith.falsy A p then Arith.zero A else p
  | None => Arith.zero A
  end.

(** The body of [items.forEach]. *)
Definition addItem (data : list (Bucket.over num)) (item : ShoppingItem.over num)
    : list (Bucket.over num) :=
  let n := toLowerCase (ShoppingItem.name item) in
  let price := bestPriceOr0 item in
  if JsString.includes n (str "куриц") || JsString.includes n (str "мясо")
     || JsString.includes n (str "рыба") || JsString.includes n (str "филе")
     || JsString.includes n (str "говяд")
  then addAt 0 price data
  else if JsString.includes n (str "огур") || JsString.includes n (str "помид")
     || JsString.includes n (str "картоф") || JsString.includes n (str "фрукт")
     || JsString.includes n (str "яблок")
  then addAt 1 price data
  else if JsString.includes n (str "молок") || JsString.includes n (str "сыр")
     || JsString.includes n (str "творог") || JsString.includes n (str "кефир")
  then addAt 2 price data
  else addAt 3 price data.

(** The chart data; [None] is the "no data" placeholder. *)
Definition Analytics (items : list (ShoppingItem.over num))
    : option (list (Bucket.over num)) :=
  if (length items =? 0)%nat then None
  else Some (fold_left addItem items data0).

End Analytics.

(** ** Specification-side notions *)

(** [a] may stand before [b] in an array sorted with comparator [cmp]. *)
Definition leq {A : Type} (cmp : A -> A -> Z) (a b : A) : Prop := cmp a b <= 0.

(** The data-model invariant of an item's quote set: at most one quote per
    store name. *)
Definition uniqueStores {num : Type} (item : ShoppingItem.over num) : Prop :=
  NoDup (map StorePrice.storeName (ShoppingItem.prices item)).

(** [q] is an in-stock quote of store [s]. *)
Definition inStockFor {num : Type} (s : jsstring) (q : StorePrice.over num) : bool :=
  JsString.eqb (StorePrice.storeName q) s && StorePrice.inStock q.

Definition hasInStockQuote {num : Type} (s : jsstring)
    (item : ShoppingItem.over num) : bool :=
  existsb (inStockFor s) (ShoppingItem.prices item).

(** The prices of the in-stock quotes of [s] in one item. *)
Definition inStockPrices {num : Type} (s : jsstring)
    (item : ShoppingItem.over num) : list num :=
  map StorePrice.price (filter (inStockFor s) (ShoppingItem.prices item)).

(** Sum of price over the items where [s] has an in-stock quote, added up
    in the order of the items. *)
Definition spec_totalCost {num : Type} (A : Arith.t num) (s : jsstring)
    (items : list (ShoppingItem.over num)) : num :=
  sumWith A (flat_map (inStockPrices s) items).

(** Count of the items where [s] has no in-stock quote. *)
Definition spec_missingItems {num : Type} (s : jsstring)
    (items : list (ShoppingItem.over num)) : Z :=
  Z.of_nat (length (filter (fun item => negb (hasInStockQuote s item)) items)).

(** The ranking order: fewer missing items first, then cheaper. *)
Definition rankLe (a b : StoreTotal.t) : Prop :=
  StoreTotal.missingItems a < StoreTotal.missingItems b
  \/ (StoreTotal.missingItems a = StoreTotal.missingItems b
      /\ StoreTotal.totalCost a <= StoreTotal.totalCost b).

(** Entries with the given pair of keys. *)
Definition sameKeys (m c : Z) (t : StoreTotal.t) : bool :=
  (StoreTotal.missingItems t =? m) && (StoreTotal.totalCost t =? c).

(** [m] is the minimum price among the in-stock quotes of [l]. *)
Definition minInStock (l : list StorePrice.t) (m : Z) : Prop :=
  (exists q, In q l /\ StorePrice.inStock q = true /\ StorePrice.price q = m)
  /\ (forall q, In q l -> StorePrice.inStock q = true -> m <= StorePrice.price q).

(** The cell of quote [q] in the row of [item] is highlighted. *)
Definition flagged (stores : list jsstring) (item : ShoppingItem.t)
    (q : StorePrice.t) : Prop :=
  In (Cell.mk (StorePrice.storeName q) (Some q) true)
    (Row.cells (tableRow stores item)).

(** The first in-stock quote attaining the minimum in-stock price, in
    iteration order: the tie-break rule as the specification words it. *)
Definition firstCheapest (l : list StorePrice.t) : option StorePrice.t :=
  match map StorePrice.price (filter StorePrice.inStock l) with
  | [] => None
  | p :: ps =>
      find (fun q => StorePrice.inStock q && (StorePrice.price q =? Math_min p ps)) l
  end.

(** The stored best-price fields as the specification describes them. *)
Definition bestIsFirstCheapest (item : ParsedItem.t) : Prop :=
  ShoppingItem.bestStore (postProcess item)
  = option_map StorePrice.storeName (firstCheapest (ParsedItem.prices item))
  /\ ShoppingItem.bestPrice (postProcess item)
    = option_map StorePrice.price (firstCheapest (ParsedItem.prices item)).

(** The shape the validation establishes. *)
Definition wellShaped (p : PlanData.t) : Prop :=
  Array_isArray (PlanData.meals p) = true
  /\ Array_isArray (PlanData.shoppingList p) = true
  /\ isNumber (PlanData.totalEstimatedCost p) = true.





(** ** Example data of the specification *)

Definition quote (store : jsstring) (p : Z) (stock : bool) : StorePrice.t :=
  StorePrice.mk store p stock [] [].

(** The two-item shopping list of the end-to-end example. *)
Definition exampleList : list ShoppingItem.t :=
  [ ShoppingItem.mk (str "0") (str "item1") []
      [quote (str "A") 100 true; quote (str "B") 110 true] None None;
    ShoppingItem.mk (str "1") (str "item2") []
      [quote (str "B") 120 true] None None ].

(** The same list with prices in doubles. *)
Definition quoteDouble (store : jsstring) (p : float) (stock : bool)
    : StorePrice.over float :=
  StorePrice.mk store p stock [] [].

Definition exampleListDouble : list (ShoppingItem.over float) :=
  [ ShoppingItem.mk (str "0") (str "item1") []
      [quoteDouble (str "A") 100 true; quoteDouble (str "B") 110 true] None None;
    ShoppingItem.mk (str "1") (str "item2") []
      [quoteDouble (str "B") 120 true] None None ].

(** The quotes of the highlighter example. *)
Definition exampleQuotes : list StorePrice.t :=
  [ quote (str "X") 100 true; quote (str "Y") 90 false; quote (str "Z") 100 true ].

Definition exampleItem : ShoppingItem.t :=
  ShoppingItem.mk (str "0") (str "item") [] exampleQuotes None None.

(** The two retailers of the comparator example. *)
Definition retailerA : StoreTotal.t := StoreTotal.mk (str "A") 500 1.
Definition retailerB : StoreTotal.t := StoreTotal.mk (str "B") 900 0.

(** The highlighter example as an element of a parsed response. *)
Definition exampleParsed : ParsedItem.t :=
  ParsedItem.mk (str "0") (str "item") [] exampleQuotes None None.

(** A parsed item without a quote in stock that carries best-price fields. *)
Definition staleParsed : ParsedItem.t :=
  ParsedItem.mk (str "1") (str "item") [] [quote (str "Y") 90 false]
    (Some (str "Y")) (Some 90).

(** [handlePlanUpdate] replaces the shopping list by the skeleton of the new
    plan: the transition as the specification words it. *)
Definition replacedWholesale (newPlan : AIPlanResponse.t) (s : App.state) : Prop :=
  App.shoppingList (App.handlePlanUpdate newPlan s)
  = mapi App.skeleton (AIPlanResponse.shoppingList newPlan).

(** A session: a plan with one product, then its prices, then a new plan
    that lists no product. *)
Definition planOne : AIPlanResponse.t :=
  AIPlanResponse.mk [] [PlanItem.mk (str "milk") (str "1 l") 90] 90.

Definition planNone : AIPlanResponse.t := AIPlanResponse.mk [] [] 0.

Definition pricedState : App.state :=
  App.handleStartParsing
    (Ok (Some [ParsedItem.mk (str "0") (str "milk") (str "1 l")
                 [quote (str "A") 95 true] None None]))
    (App.handlePlanUpdate planOne App.init).

(** A priced list whose only item carries no quote. *)
Definition noQuotes : list ParsedItem.t :=
  [ParsedItem.mk (str "0") (str "milk") (str "1 l") [] None None].

Definition noQuotesState : App.state :=
  App.handleStartParsing (Ok (Some noQuotes))
    (App.handlePlanUpdate planOne App.init).

(** The keyword groups of the budget distribution and the index of the
    bucket they select. *)
Definition meatFish : list jsstring :=
  [str "куриц"; str "мясо"; str "рыба"; str "филе"; str "говяд"].

Definition vegFruit : list jsstring :=
  [str "огур"; str "помид"; str "картоф"; str "фрукт"; str "яблок"].

Definition dairy : list jsstring :=
  [str "молок"; str "сыр"; str "творог"; str "кефир"].

Definition matchesAny (n : jsstring) (keywords : list jsstring) : bool :=
  existsb (JsString.includes n) keywords.

Definition category (n : jsstring) : nat :=
  if matchesAny n meatFish then 0
  else if matchesAny n vegFruit then 1
  else if matchesAny n dairy then 2
  else 3.

Section AnalyticsNotions.

Context {num : Type} (A : Arith.t num).

Variable toLowerCase : jsstring -> jsstring.

(** The prices of the items of one category, added up in list order. *)
Definition bucketSum (k : nat) (items : list (ShoppingItem.over num)) : num :=
  sumWith A
    (map (bestPriceOr0 A)
       (filter (fun item =>
                  (category (toLowerCase (ShoppingItem.name item)) =? k)%nat)
          items)).

(** [bestPrice] with an absent one counting as 0. *)
Definition bestOrZero (item : ShoppingItem.over num) : num :=
  match ShoppingItem.bestPrice item with
  | Some p => p
  | None => Arith.zero A
  end.

(** Sum over all items of [bestPrice], an absent one counting as 0, added
    up in list order. *)
Definition totalBest (items : list (ShoppingItem.over num)) : num :=
  sumWith A (map bestOrZero items).

(** The sum of the four bucket values. *)
Definition bucketsTotal (data : list (Bucket.over num)) : num :=
  sumWith A (map Bucket.value data).

(** The four buckets add up to the sum of the best prices: the closing
    statement of the property as it is worded. *)
Definition bucketsAddUp (items : list (ShoppingItem.over num)) : Prop :=
  match Analytics A toLowerCase items with
  | Some data => bucketsTotal data = totalBest items
  | None => True
  end.

End AnalyticsNotions.

(** The additions are exact: [+] is associative and commutative with [0]
    neutral, and only [0] is falsy. Integer amounts satisfy this, doubles do
    not. *)
Definition exactArith {num : Type} (A : Arith.t num) : Prop :=
  (forall x y z, Arith.add A x (Arith.add A y z) = Arith.add A (Arith.add A x y) z)
  /\ (forall x y, Arith.add A x y = Arith.add A y x)
  /\ (forall x, Arith.add A (Arith.zero A) x = x)
  /\ (forall x, Arith.falsy A x = true -> x = Arith.zero A).

(** Three priced items in doubles: meat at 0.2, cheese at 0.3, fish at
    0.1. *)
Definition pricedDouble (name : jsstring) (p : float) : ShoppingItem.over float :=
  ShoppingItem.mk (str "0") name [] [quoteDouble (str "A") p true]
    (Some (str "A")) (Some p).

Definition roundingList : list (ShoppingItem.over float) :=
  [ pricedDouble (str "мясо") 0.2;
    pricedDouble (str "сыр") 0.3;
    pricedDouble (str "рыба") 0.1 ].

(** Arguments of a tool call whose fields all have the wrong shape. *)
Definition malformedArgs : jsval :=
  JObject [ (str "meals", JString (str "none"));
            (str "totalEstimatedCost", JString (str "1200")) ].

Definition malformedCall : FunctionCall.t :=
  FunctionCall.mk (str "update_meal_plan") malformedArgs.

(** A priced item for the budget distribution. *)
Definition milkItem : ShoppingItem.t :=
  ShoppingItem.mk (str "0") (str "молоко 3.2%") (str "1 л")
    [quote (str "A") 95 true] (Some (str "A")) (Some 95).

(** ** Notions for the further properties *)

(** The first quote of store [s] in the item is in stock: the item counts
    for [s]. *)
Definition covered (s : jsstring) (item : ShoppingItem.t) : bool :=
  match cellQuote item s with
  | Some p => StorePrice.inStock p
  | None => false
  end.

(** What the item adds to the total of store [s]. *)
Definition costAt (s : jsstring) (item : ShoppingItem.t) : Z :=
  match cellQuote item s with
  | Some p => if StorePrice.inStock p then StorePrice.price p else 0
  | None => 0
  end.

(** The best price recomputed from the quotes of the item. *)
Definition liveBest (item : ShoppingItem.t) : option Z :=
  if existsb StorePrice.inStock (ShoppingItem.prices item)
  then Some (minPrice item) else None.

(** The stored best-price fields agree with the quotes. *)
Definition bestFresh (item : ShoppingItem.t) : Prop :=
  ShoppingItem.bestPrice item = liveBest item
  /\ (ShoppingItem.bestStore item = None <-> ShoppingItem.bestPrice item = None).

(** Some cell of the row of [item] is highlighted. *)
Definition rowHighlighted (stores : list jsstring) (item : ShoppingItem.t) : bool :=
  existsb Cell.best (Row.cells (tableRow stores item)).

(** A plan rebuilt as the arguments of a tool call. *)
Definition argsOf (p : PlanData.t) : jsval :=
  JObject [ (str "meals", PlanData.meals p);
            (str "shoppingList", PlanData.shoppingList p);
            (str "totalEstimatedCost", PlanData.totalEstimatedCost p) ].

Definition isUpdate (call : FunctionCall.t) : bool :=
  JsString.eqb (FunctionCall.name call) (str "update_meal_plan").

(** A second shopping list: the example with its items swapped. *)
Definition exampleSwapped : list ShoppingItem.t := rev exampleList.

(** Three items quoted by one store at 0.1, 0.2 and 0.3, in doubles. *)
Definition driftList : list (ShoppingItem.over float) :=
  [ ShoppingItem.mk (str "0") (str "item1") []
      [quoteDouble (str "A") 0.1 true] None None;
    ShoppingItem.mk (str "1") (str "item2") []
      [quoteDouble (str "A") 0.2 true] None None;
    ShoppingItem.mk (str "2") (str "item3") []
      [quoteDouble (str "A") 0.3 true] None None ].

(** A parsed response that prices the end-to-end example. *)
Definition exampleData : list ParsedItem.t :=
  [ ParsedItem.mk (str "0") (str "item1") []
      [quote (str "A") 100 true; quote (str "B") 110 true] None None;
    ParsedItem.mk (str "1") (str "item2") []
      [quote (str "B") 120 true] None None ].

(** A store that is listed but never in stock. *)
Definition soldOutList : list ShoppingItem.t :=
  [ ShoppingItem.mk (str "0") (str "item1") []
      [quote (str "A") 100 true; quote (str "C") 90 false] None None;
    ShoppingItem.mk (str "1") (str "item2") []
      [quote (str "A") 120 true] None None ].

(** The response schema of the price request lists [id], [name],
    [originalAmount] and [prices] only: a parsed item that follows it carries
    neither best-price field. *)
Definition followsSchema (p : ParsedItem.t) : bool :=
  match ShoppingItem.bestStore p, ShoppingItem.bestPrice p with
  | None, None => true
  | _, _ => false
  end.

(** Every response of a price estimation follows the schema. *)
Definition schemaEvent (e : App.event) : bool :=
  match e with
  | App.ParsingEnded (Ok (Some data)) => forallb followsSchema data
  | _ => true
  end.

(** The invariant of the session state: the stored best prices agree with
    the quotes, the status [PLANNING] is never taken, and a ready shopping
    list is a post-processed response. *)
Definition sessionInv (s : App.state) : Prop :=
  (forall item, In item (App.shoppingList s) -> bestFresh item)
  /\ App.status s <> PLANNING
  /\ (App.status s = READY ->
      exists data, App.shoppingList s = map postProcess data).

(** Tool calls of one response: an unrelated call, an update with malformed
    fields and a well-formed update. *)
Definition otherCall : FunctionCall.t :=
  FunctionCall.mk (str "get_weather") JNull.

Definition goodPlan : PlanData.t :=
  PlanData.mk (JArray []) (JArray [JObject [(str "name", JString (str "milk"))]])
    (JNumber 90).

Definition goodCall : FunctionCall.t :=
  FunctionCall.mk (str "update_meal_plan") (argsOf goodPlan).

(** ** The API key ([App.tsx], lines 77 and 175-204; [getAi]) *)

Module KeyModal.

(** [process.env.API_KEY] and the [apiKey] cell. *)
Record state : Type := mk
  { envKey : option jsstring;
    apiKey : jsstring }.

(** Truthiness of [process.env.API_KEY]: set and not the empty string. *)
Definition envSet (s : state) : bool :=
  match envKey s with
  | Some (_ :: _) => true
  | _ => false
  end.

(** [!process.env.API_KEY && !apiKey] *)
Definition showKeyModal (s : state) : bool :=
  negb (envSet s) && match apiKey s with [] => true | _ :: _ => false end.

(** [onChange] of the input of the modal. *)
Definition onChange (text : jsstring) (s : state) : state :=
  mk (envKey s) text.

(** [onClick] of the button of the modal. *)
Definition onClick (s : state) : state :=
  if (10 <? length (apiKey s))%nat
  then mk (Some (apiKey s)) (apiKey s)
  else s.

Inductive event : Type :=
| Typed (text : jsstring)
| Clicked.

(** The input and the button exist while the modal is shown. *)
Definition step (s : state) (e : event) : state :=
  if showKeyModal s then
    match e with
    | Typed text => onChange text s
    | Clicked => onClick s
    end
  else s.

Definition run (events : list event) (s : state) : state :=
  fold_left step events s.

End KeyModal.

(** [getAi]: the key handed to the client, or the error "API Key
    required". *)
Definition getAi (envKey : option jsstring) : result jsstring :=
  match envKey with
  | Some (c :: key) => Ok (c :: key)
  | _ => Throw ApiError
  end.

(** The request of [simulatePriceParsing]: [getAi] comes first, then the
    outcome of the call of the service. *)
Definition priceRequest (envKey : option jsstring)
    (response : result (option (list ParsedItem.t)))
    : result (option (list ParsedItem.t)) :=
  _ <- getAi envKey ;; response.

(** The highlighter flags exactly the in-stock quotes at the minimum
    in-stock price: the property as it is worded, for every item. *)
Definition flagsExactlyMinimum (items : list ShoppingItem.t)
    (item : ShoppingItem.t) : Prop :=
  forall q,
    In q (ShoppingItem.prices item) ->
    (flagged (allStoreNames items) item q <->
     StorePrice.inStock q = true
     /\ minInStock (ShoppingItem.prices item) (StorePrice.price q)).

(** An item with two quotes of one store. *)
Definition twiceItem : ShoppingItem.t :=
  ShoppingItem.mk (str "0") (str "item") []
    [quote (str "X") 100 true; quote (str "X") 90 true] None None.

(** * Properties *)

(** ** Strings *)

Example str_ascii : str "B" = [66%N].
Proof. reflexivity. Qed.

Example str_cyrillic : str "куриц" = [1082; 1091; 1088; 1080; 1094]%N.
Proof. reflexivity. Qed.

Example toString_12 : JsString.toString 12 = str "12".
Proof. reflexivity. Qed.

Lemma JsString_eqb_eq (a b : jsstring) : JsString.eqb a b = true <-> a = b.
Proof.
  revert b; induction a as [|c a IH]; intros [|d b]; simpl;
    try (split; [discriminate | discriminate]); try tauto.
  rewrite andb_true_iff, N.eqb_eq, IH.
  split; [intros [-> ->]; reflexivity | intros H; inversion H; auto].
Qed.

Lemma JsString_eqb_refl (a : jsstring) : JsString.eqb a a = true.
Proof. apply JsString_eqb_eq; reflexivity. Qed.

Lemma JsString_eqb_neq (a b : jsstring) : JsString.eqb a b = false <-> a <> b.
Proof.
  rewrite <- JsString_eqb_eq. destruct (JsString.eqb a b); split; congruence.
Qed.

Lemma N_compare_trans (x y z : N) (c : comparison) :
  (x ?= y)%N = c -> (y ?= z)%N = c -> (x ?= z)%N = c.
Proof.
  destruct c; intros H1 H2.
  - apply N.compare_eq_iff in H1, H2. subst. apply N.compare_refl.
  - rewrite N.compare_lt_iff in *. lia.
  - rewrite N.compare_gt_iff in *. lia.
Qed.

Lemma JsString_compare_eq (a b : jsstring) :
  JsString.compare a b = Eq <-> a = b.
Proof. apply list_compare_refl, N.compare_eq_iff. Qed.

Lemma JsString_compare_antisym (a b : jsstring) :
  JsString.compare b a = CompOpp (JsString.compare a b).
Proof.
  apply list_compare_antisym.
  - apply N.compare_eq_iff.
  - intros x y. apply N.compare_antisym.
Qed.

Lemma JsString_lt_trans (a b c : jsstring) :
  JsString.lt a b -> JsString.lt b c -> JsString.lt a c.
Proof.
  unfold JsString.lt, JsString.compare. apply list_compare_trans.
  - apply N.compare_eq_iff.
  - intros x y z k. apply N_compare_trans.
  - intros x y. apply N.compare_antisym.
Qed.

Lemma JsString_lt_irrefl (a : jsstring) : ~ JsString.lt a a.
Proof.
  unfold JsString.lt. intros H.
  assert (E : JsString.compare a a = Eq) by (apply JsString_compare_eq; reflexivity).
  congruence.
Qed.

Lemma JsString_ltb_lt (a b : jsstring) : JsString.ltb a b = true <-> JsString.lt a b.
Proof.
  unfold JsString.ltb, JsString.lt.
  destruct (JsString.compare a b); split; congruence.
Qed.

(** [defaultCompare x y <= 0] says that [y] is not below [x]. *)
Lemma defaultCompare_le (x y : jsstring) :
  defaultCompare x y <= 0 <-> ~ JsString.lt y x.
Proof.
  unfold defaultCompare, JsString.ltb, JsString.lt.
  rewrite (JsString_compare_antisym x y).
  destruct (JsString.compare x y); simpl; split; intros H;
    try lia; try congruence.
Qed.

Lemma defaultCompare_total (x y : jsstring) :
  defaultCompare x y <= 0 \/ defaultCompare y x <= 0.
Proof.
  unfold defaultCompare, JsString.ltb.
  rewrite (JsString_compare_antisym x y).
  destruct (JsString.compare x y); simpl; lia.
Qed.

Lemma defaultCompare_trans (x y z : jsstring) :
  defaultCompare x y <= 0 -> defaultCompare y z <= 0 -> defaultCompare x z <= 0.
Proof.
  rewrite !defaultCompare_le. intros Hyx Hzy Hzx.
  destruct (JsString.compare y x) eqn:Eyx.
  - apply JsString_compare_eq in Eyx. subst. contradiction.
  - apply Hyx. exact Eyx.
  - assert (Hxy : JsString.lt x y).
    { unfold JsString.lt. rewrite JsString_compare_antisym, Eyx. reflexivity. }
    apply Hzy. eapply JsString_lt_trans; eassumption.
Qed.

(** ** The stable sort *)

Section SortFacts.

Context {A : Type} (cmp : A -> A -> Z).

Lemma insert_perm (x : A) (l : list A) : Permutation (insert cmp x l) (x :: l).
Proof.
  induction l as [|y l IH]; simpl; [reflexivity|].
  destruct (cmp x y <=? 0); [reflexivity|].
  rewrite IH. apply perm_swap.
Qed.

Lemma sort_perm (l : list A) : Permutation (sort cmp l) l.
Proof.
  induction l as [|x l IH]; simpl; [reflexivity|].
  rewrite insert_perm. constructor. exact IH.
Qed.

Lemma sort_In (l : list A) (x : A) : In x (sort cmp l) <-> In x l.
Proof.
  split; apply Permutation_in; [|symmetry]; apply sort_perm.
Qed.

(** Elements that the comparator never orders strictly against each other
    keep their relative order: the sort is stable. *)
Lemma insert_filter (f : A -> bool) (x : A) (l : list A) :
  (forall a b, f a = true -> f b = true -> cmp a b <= 0) ->
  filter f (insert cmp x l) = filter f (x :: l).
Proof.
  intros Hf. induction l as [|y l IH]; [reflexivity|].
  simpl insert. destruct (cmp x y <=? 0) eqn:E; [reflexivity|].
  apply Z.leb_gt in E.
  change (filter f (y :: insert cmp x l)) with
    (if f y then y :: filter f (insert cmp x l) else filter f (insert cmp x l)).
  rewrite IH. simpl.
  destruct (f x) eqn:Fx, (f y) eqn:Fy; try reflexivity.
  specialize (Hf x y Fx Fy). lia.
Qed.

Lemma sort_filter (f : A -> bool) (l : list A) :
  (forall a b, f a = true -> f b = true -> cmp a b <= 0) ->
  filter f (sort cmp l) = filter f l.
Proof.
  intros Hf. induction l as [|x l IH]; [reflexivity|].
  simpl sort. rewrite insert_filter by exact Hf.
  simpl. rewrite IH. reflexivity.
Qed.

Hypothesis cmp_total : forall a b, cmp a b <= 0 \/ cmp b a <= 0.
Hypothesis cmp_trans : forall a b c, cmp a b <= 0 -> cmp b c <= 0 -> cmp a c <= 0.

Lemma insert_sorted (x : A) (l : list A) :
  StronglySorted (leq cmp) l -> StronglySorted (leq cmp) (insert cmp x l).
Proof.
  induction 1 as [|y l Hs IH Hy]; simpl.
  - constructor; constructor.
  - destruct (cmp x y <=? 0) eqn:E.
    + apply Z.leb_le in E. constructor; [constructor; assumption|].
      constructor; [exact E|].
      rewrite Forall_forall in *. intros z Hz. eapply cmp_trans; [exact E|].
      apply Hy, Hz.
    + apply Z.leb_gt in E. constructor; [exact IH|].
      rewrite Forall_forall in *. intros z Hz.
      apply (Permutation_in _ (insert_perm x l)) in Hz.
      destruct Hz as [<-|Hz]; [|apply Hy, Hz].
      destruct (cmp_total y x) as [H|H]; [exact H|lia].
Qed.

Lemma sort_sorted (l : list A) : StronglySorted (leq cmp) (sort cmp l).
Proof.
  induction l as [|x l IH]; simpl; [constructor|].
  apply insert_sorted, IH.
Qed.

(** A sorted array is left as it is. *)
Lemma sort_id (l : list A) : StronglySorted (leq cmp) l -> sort cmp l = l.
Proof.
  induction 1 as [|x l Hs IH Hx]; [reflexivity|].
  simpl. rewrite IH. destruct l as [|y l]; [reflexivity|].
  simpl. inversion Hx as [|? ? Hxy _]; subst.
  unfold leq in Hxy. apply Z.leb_le in Hxy. rewrite Hxy. reflexivity.
Qed.

Lemma sort_idempotent (l : list A) : sort cmp (sort cmp l) = sort cmp l.
Proof. apply sort_id, sort_sorted. Qed.

End SortFacts.

(** ** Retailer universe *)

Section SetFacts.

Context {A : Type} (eqb : A -> A -> bool).
Hypothesis eqb_eq : forall a b, eqb a b = true <-> a = b.

Lemma existsb_eqb (x : A) (s : list A) : existsb (eqb x) s = true <-> In x s.
Proof.
  rewrite existsb_exists. split.
  - intros (y & Hy & E). apply eqb_eq in E. subst. exact Hy.
  - intros H. exists x. split; [exact H | apply eqb_eq; reflexivity].
Qed.

Lemma Set_add_In (s : list A) (x y : A) :
  In y (Set_add eqb s x) <-> In y s \/ y = x.
Proof.
  unfold Set_add. destruct (existsb (eqb x) s) eqn:E.
  - apply existsb_eqb in E. split; [auto|]. intros [H| ->]; assumption.
  - rewrite in_app_iff. simpl. intuition congruence.
Qed.

Lemma Set_add_NoDup (s : list A) (x : A) : NoDup s -> NoDup (Set_add eqb s x).
Proof.
  intros Hs. unfold Set_add. destruct (existsb (eqb x) s) eqn:E; [exact Hs|].
  assert (Hx : ~ In x s).
  { intros H. apply existsb_eqb in H. congruence. }
  clear E. induction s as [|a s IH]; simpl.
  - constructor; [intros []|constructor].
  - inversion Hs as [|? ? Ha Hs']; subst. constructor.
    + rewrite in_app_iff. simpl. intros [H|[H|[]]]; [auto|].
      subst. apply Hx. left; reflexivity.
    + apply IH; [exact Hs'|]. intros H. apply Hx. right; exact H.
Qed.

Lemma fold_Set_add_In (l s : list A) (y : A) :
  In y (fold_left (Set_add eqb) l s) <-> In y s \/ In y l.
Proof.
  revert s. induction l as [|x l IH]; intros s; simpl; [tauto|].
  rewrite IH, Set_add_In. intuition congruence.
Qed.

Lemma fold_Set_add_NoDup (l s : list A) :
  NoDup s -> NoDup (fold_left (Set_add eqb) l s).
Proof.
  revert s. induction l as [|x l IH]; intros s Hs; simpl; [exact Hs|].
  apply IH, Set_add_NoDup, Hs.
Qed.

Lemma Array_from_Set_In (l : list A) (y : A) :
  In y (Array_from_Set eqb l) <-> In y l.
Proof. unfold Array_from_Set. rewrite fold_Set_add_In. simpl. tauto. Qed.

Lemma Array_from_Set_NoDup (l : list A) : NoDup (Array_from_Set eqb l).
Proof. apply fold_Set_add_NoDup. constructor. Qed.

End SetFacts.

Lemma sorted_NoDup_strict (l : list jsstring) :
  StronglySorted (leq defaultCompare) l -> NoDup l ->
  StronglySorted JsString.lt l.
Proof.
  induction 1 as [|x l Hs IH Hx]; intros Hn; constructor;
    inversion Hn as [|? ? Hnx Hn']; subst.
  - apply IH, Hn'.
  - rewrite Forall_forall in *. intros y Hy.
    specialize (Hx y Hy). apply defaultCompare_le in Hx.
    unfold JsString.lt in *.
    destruct (JsString.compare x y) eqn:E; [| reflexivity |].
    + apply JsString_compare_eq in E. subst. contradiction.
    + exfalso. apply Hx. rewrite JsString_compare_antisym, E. reflexivity.
Qed.

Lemma allStoreNames_In (items : list ShoppingItem.t) (s : jsstring) :
  In s (allStoreNames items) <->
  exists item q,
    In item items /\ In q (ShoppingItem.prices item) /\ StorePrice.storeName q = s.
Proof.
  unfold allStoreNames, allStoreNamesOf.
  rewrite sort_In, (Array_from_Set_In _ JsString_eqb_eq), in_flat_map.
  split.
  - intros (item & Hi & Hs). apply in_map_iff in Hs as (q & Hq & Hin).
    exists item, q. auto.
  - intros (item & q & Hi & Hq & Hs). exists item. split; [exact Hi|].
    apply in_map_iff. exists q. auto.
Qed.

Lemma allStoreNames_NoDup (items : list ShoppingItem.t) :
  NoDup (allStoreNames items).
Proof.
  unfold allStoreNames, allStoreNamesOf.
  eapply Permutation_NoDup; [symmetry; apply sort_perm|].
  apply (Array_from_Set_NoDup _ JsString_eqb_eq).
Qed.

Lemma allStoreNames_sorted (items : list ShoppingItem.t) :
  StronglySorted JsString.lt (allStoreNames items).
Proof.
  apply sorted_NoDup_strict; [|apply allStoreNames_NoDup].
  apply sort_sorted; [apply defaultCompare_total | apply defaultCompare_trans].
Qed.

(** C4. The retailer universe is exactly the set of store names that occur
    in some quote of some item, without duplicates and in strictly ascending
    lexicographic (code unit) order. It holds for every shopping list, the
    non-empty ones in particular. *)
Theorem allStoreNames_universe (items : list ShoppingItem.t) :
  (forall s,
      In s (allStoreNames items) <->
      exists item q,
        In item items /\ In q (ShoppingItem.prices item)
        /\ StorePrice.storeName q = s)
  /\ NoDup (allStoreNames items)
  /\ StronglySorted JsString.lt (allStoreNames items).
Proof.
  split; [|split].
  - apply allStoreNames_In.
  - apply allStoreNames_NoDup.
  - apply allStoreNames_sorted.
Qed.

(** ** Store aggregator *)

Lemma Zsum_app (l1 l2 : list Z) : Zsum (l1 ++ l2) = Zsum l1 + Zsum l2.
Proof. induction l1 as [|x l1 IH]; simpl; [reflexivity | rewrite IH; lia]. Qed.

Lemma filter_andb {A : Type} (f g : A -> bool) (l : list A) :
  filter (fun x => f x && g x) l = filter g (filter f l).
Proof.
  induction l as [|x l IH]; simpl; [reflexivity|].
  destruct (f x); simpl; [destruct (g x)|]; rewrite IH; reflexivity.
Qed.

Lemma existsb_filter {A : Type} (f : A -> bool) (l : list A) :
  existsb f l = match filter f l with [] => false | _ :: _ => true end.
Proof.
  induction l as [|x l IH]; simpl; [reflexivity|].
  destruct (f x); simpl; [reflexivity | exact IH].
Qed.

(** With at most one quote per store, [find] returns the only quote of the
    store. *)
Lemma find_unique {num : Type} (s : jsstring) (l : list (StorePrice.over num)) :
  NoDup (map StorePrice.storeName l) ->
  filter (fun q => JsString.eqb (StorePrice.storeName q) s) l
  = match find (fun q => JsString.eqb (StorePrice.storeName q) s) l with
    | Some q => [q]
    | None => []
    end.
Proof.
  induction l as [|a l IH]; intros Hn; [reflexivity|].
  simpl in Hn. inversion Hn as [|? ? Ha Hn']; subst. simpl.
  destruct (JsString.eqb (StorePrice.storeName a) s) eqn:E.
  - f_equal. apply JsString_eqb_eq in E.
    assert (Hnone : forall q, In q l ->
              JsString.eqb (StorePrice.storeName q) s = false).
    { intros q Hq. apply JsString_eqb_neq. intros Hs. apply Ha.
      rewrite E, <- Hs. apply in_map, Hq. }
    clear - Hnone. induction l as [|b l IH]; [reflexivity|].
    simpl. rewrite (Hnone b) by (left; reflexivity).
    apply IH. intros q Hq. apply Hnone. right; exact Hq.
  - apply IH, Hn'.
Qed.

Section AggregatorFacts.

Context {num : Type} (A : Arith.t num).

Lemma accumulate_spec (s : jsstring) (tc : num) (mi : Z)
    (item : ShoppingItem.over num) :
  uniqueStores item ->
  accumulateWith A s (tc, mi) item
  = (fold_left (Arith.add A) (inStockPrices s item) tc,
     mi + if hasInStockQuote s item then 0 else 1).
Proof.
  intros Hu. unfold accumulateWith, inStockPrices, hasInStockQuote, inStockFor.
  rewrite existsb_filter, filter_andb, (find_unique s _ Hu).
  destruct (find _ (ShoppingItem.prices item)) as [q|]; simpl.
  - destruct (StorePrice.inStock q); simpl; f_equal; lia.
  - f_equal; lia.
Qed.

Lemma fold_accumulate_spec (s : jsstring) (items : list (ShoppingItem.over num)) :
  (forall item, In item items -> uniqueStores item) ->
  forall tc mi,
    fold_left (accumulateWith A s) items (tc, mi)
    = (fold_left (Arith.add A) (flat_map (inStockPrices s) items) tc,
       mi + spec_missingItems s items).
Proof.
  unfold spec_missingItems.
  induction items as [|item items IH]; intros Hu tc mi.
  - simpl. f_equal; lia.
  - cbn [fold_left flat_map filter].
    rewrite accumulate_spec by (apply Hu; left; reflexivity).
    rewrite IH by (intros i Hi; apply Hu; right; exact Hi).
    rewrite fold_left_app.
    destruct (hasInStockQuote s item); cbn [negb length]; f_equal; lia.
Qed.

Lemma storeTotalWith_spec (items : list (ShoppingItem.over num)) (s : jsstring) :
  (forall item, In item items -> uniqueStores item) ->
  storeTotalWith A items s
  = StoreTotal.mk s (spec_totalCost A s items) (spec_missingItems s items).
Proof.
  intros Hu. unfold storeTotalWith. rewrite (fold_accumulate_spec s items Hu).
  reflexivity.
Qed.

End AggregatorFacts.

(** C1. When every item has at most one quote per store, the aggregation
    produces, for every retailer of the universe and in the order of the
    universe, the sum of the prices of the retailer's in-stock quotes, added
    up in the order of the items, and the number of items without an in-stock
    quote of the retailer. This holds whatever the arithmetic of the numbers
    is, for IEEE 754 doubles in particular. On the two-item example the
    totals are A: 100 with 1 missing, B: 230 with none missing, at integer
    amounts and in doubles. *)
Theorem storeTotals_correct :
  (forall (num : Type) (A : Arith.t num) (items : list (ShoppingItem.over num)),
      (forall item, In item items -> uniqueStores item) ->
      storeTotalsWith A items
      = map (fun s =>
               StoreTotal.mk s (spec_totalCost A s items) (spec_missingItems s items))
          (allStoreNamesOf items))
  /\ storeTotals exampleList
     = [ StoreTotal.mk (str "A") 100 1; StoreTotal.mk (str "B") 230 0 ]
  /\ storeTotalsWith double exampleListDouble
     = [ StoreTotal.mk (str "A") 100%float 1;
         StoreTotal.mk (str "B") 230%float 0 ].
Proof.
  split; [|split; reflexivity].
  intros num A items Hu. unfold storeTotalsWith. apply map_ext.
  intros s. apply storeTotalWith_spec, Hu.
Qed.

(** ** Ranking policy *)

Lemma compareStores_le (a b : StoreTotal.t) :
  compareStores a b <= 0 <-> rankLe a b.
Proof.
  unfold compareStores, rankLe.
  destruct (StoreTotal.missingItems a =? StoreTotal.missingItems b) eqn:E; simpl.
  - apply Z.eqb_eq in E. lia.
  - apply Z.eqb_neq in E. lia.
Qed.

Lemma compareStores_lt (a b : StoreTotal.t) :
  StoreTotal.missingItems a < StoreTotal.missingItems b -> compareStores a b < 0.
Proof.
  intros H. unfold compareStores.
  destruct (StoreTotal.missingItems a =? StoreTotal.missingItems b) eqn:E; simpl.
  - apply Z.eqb_eq in E. lia.
  - lia.
Qed.

Lemma compareStores_total (a b : StoreTotal.t) :
  compareStores a b <= 0 \/ compareStores b a <= 0.
Proof. rewrite !compareStores_le. unfold rankLe. lia. Qed.

Lemma compareStores_trans (a b c : StoreTotal.t) :
  compareStores a b <= 0 -> compareStores b c <= 0 -> compareStores a c <= 0.
Proof. rewrite !compareStores_le. unfold rankLe. lia. Qed.

Lemma sameKeys_true (m c : Z) (t : StoreTotal.t) :
  sameKeys m c t = true <->
  StoreTotal.missingItems t = m /\ StoreTotal.totalCost t = c.
Proof. unfold sameKeys. rewrite andb_true_iff, !Z.eqb_eq. tauto. Qed.

Lemma sameKeys_compare (m c : Z) (a b : StoreTotal.t) :
  sameKeys m c a = true -> sameKeys m c b = true -> compareStores a b <= 0.
Proof.
  rewrite !sameKeys_true, compareStores_le. unfold rankLe. lia.
Qed.

Lemma leq_sorted_rankLe (l : list StoreTotal.t) :
  StronglySorted (leq compareStores) l -> StronglySorted rankLe l.
Proof.
  induction 1 as [|a l _ IH Ha]; constructor; [exact IH|].
  eapply Forall_impl; [|exact Ha]. intros b. apply compareStores_le.
Qed.

Lemma sortStores_sorted (totals : list StoreTotal.t) :
  StronglySorted rankLe (sortStores totals).
Proof.
  apply leq_sorted_rankLe, sort_sorted;
    [apply compareStores_total | apply compareStores_trans].
Qed.

Lemma rankLe_sorted_leq (l : list StoreTotal.t) :
  StronglySorted rankLe l -> StronglySorted (leq compareStores) l.
Proof.
  induction 1 as [|a l _ IH Ha]; constructor; [exact IH|].
  eapply Forall_impl; [|exact Ha]. intros b. apply compareStores_le.
Qed.

Lemma sorted_nth {A : Type} (R : A -> A -> Prop) (l : list A) :
  StronglySorted R l ->
  forall i j a b,
    (i < j)%nat -> nth_error l i = Some a -> nth_error l j = Some b -> R a b.
Proof.
  induction 1 as [|x l _ IH Hx]; intros i j a b Hij Ha Hb.
  - destruct i; discriminate.
  - destruct j as [|j]; [lia|]. simpl in Hb.
    destruct i as [|i]; simpl in Ha.
    + inversion Ha; subst. rewrite Forall_forall in Hx.
      apply Hx. eapply nth_error_In, Hb.
    + apply (IH i j); [lia | assumption | assumption].
Qed.

Lemma sorted_filter {A : Type} (R : A -> A -> Prop) (f : A -> bool) (l : list A) :
  StronglySorted R l -> StronglySorted R (filter f l).
Proof.
  induction 1 as [|x l _ IH Hx]; simpl; [constructor|].
  destruct (f x); [|exact IH]. constructor; [exact IH|].
  rewrite Forall_forall in *. intros y Hy. apply Hx.
  apply filter_In in Hy. tauto.
Qed.

Lemma sorted_map {A B : Type} (R : A -> A -> Prop) (S : B -> B -> Prop)
    (g : A -> B) (l : list A) :
  (forall x y, R x y -> S (g x) (g y)) ->
  StronglySorted R l -> StronglySorted S (map g l).
Proof.
  intros HRS. induction 1 as [|x l _ IH Hx]; simpl; constructor; [exact IH|].
  rewrite Forall_forall in *. intros y Hy.
  apply in_map_iff in Hy as (z & <- & Hz). apply HRS, Hx, Hz.
Qed.

Lemma storeTotal_name (items : list ShoppingItem.t) (s : jsstring) :
  StoreTotal.storeName (storeTotal items s) = s.
Proof.
  unfold storeTotal, storeTotalWith.
  destruct (fold_left (accumulateWith exact s) items (Arith.zero exact, 0)).
  reflexivity.
Qed.

(** Two arrays in ranking order that list the entries of every pair of keys
    in the same order are equal. *)
Lemma ranked_unique (l1 : list StoreTotal.t) :
  forall l2,
    StronglySorted rankLe l1 -> StronglySorted rankLe l2 ->
    (forall m c, filter (sameKeys m c) l1 = filter (sameKeys m c) l2) ->
    l1 = l2.
Proof.
  assert (Hself : forall t : StoreTotal.t,
             sameKeys (StoreTotal.missingItems t) (StoreTotal.totalCost t) t = true).
  { intros t. apply sameKeys_true. split; reflexivity. }
  induction l1 as [|x l1 IH]; intros l2 H1 H2 Hf.
  - destruct l2 as [|y l2]; [reflexivity|].
    specialize (Hf (StoreTotal.missingItems y) (StoreTotal.totalCost y)).
    simpl in Hf. rewrite Hself in Hf. discriminate.
  - destruct l2 as [|y l2].
    + specialize (Hf (StoreTotal.missingItems x) (StoreTotal.totalCost x)).
      simpl in Hf. rewrite Hself in Hf. discriminate.
    + inversion H1 as [|? ? H1' Hx]; subst.
      inversion H2 as [|? ? H2' Hy]; subst.
      rewrite Forall_forall in Hx, Hy.
      assert (Hyx : rankLe y x).
      { assert (Hin : In x (filter (sameKeys (StoreTotal.missingItems x)
                                      (StoreTotal.totalCost x)) (y :: l2))).
        { rewrite <- Hf. simpl. rewrite Hself. left; reflexivity. }
        apply filter_In in Hin as [[<-|Hin] _].
        - unfold rankLe. lia.
        - apply Hy, Hin. }
      assert (Hxy : rankLe x y).
      { assert (Hin : In y (filter (sameKeys (StoreTotal.missingItems y)
                                      (StoreTotal.totalCost y)) (x :: l1))).
        { rewrite Hf. simpl. rewrite Hself. left; reflexivity. }
        apply filter_In in Hin as [[<-|Hin] _].
        - unfold rankLe. lia.
        - apply Hx, Hin. }
      assert (Hk : sameKeys (StoreTotal.missingItems x) (StoreTotal.totalCost x) y
                   = true).
      { apply sameKeys_true. unfold rankLe in *. lia. }
      assert (Exy : x = y).
      { specialize (Hf (StoreTotal.missingItems x) (StoreTotal.totalCost x)).
        simpl in Hf. rewrite Hself, Hk in Hf. congruence. }
      subst y. f_equal. apply IH; [assumption | assumption |].
      intros m c. specialize (Hf m c). simpl in Hf.
      destruct (sameKeys m c x); congruence.
Qed.

(** Whatever stable sorting procedure the engine runs, the ranking is the
    array computed by [sortStores]. *)
Lemma stable_ranking_unique (totals ranked : list StoreTotal.t) :
  StronglySorted rankLe ranked ->
  (forall m c, filter (sameKeys m c) ranked = filter (sameKeys m c) totals) ->
  ranked = sortStores totals.
Proof.
  intros Hs Hf. apply ranked_unique; [exact Hs | apply sortStores_sorted |].
  intros m c. rewrite Hf. symmetry.
  apply sort_filter. apply sameKeys_compare.
Qed.

(** The end-to-end example: B wins with nothing missing, at 230. *)
Example exampleList_universe : allStoreNames exampleList = [str "A"; str "B"].
Proof. reflexivity. Qed.

Example exampleList_winner :
  winner exampleList = Some (StoreTotal.mk (str "B") 230 0).
Proof. reflexivity. Qed.

Example exampleList_banner :
  exists cards header rows,
    PriceParser READY exampleList
    = Ok (ComparisonView (Banner.mk (str "B") None 230) cards header rows).
Proof. do 3 eexists. reflexivity. Qed.

(** C2. The ranking is a rearrangement of the store totals in the order
    "fewer missing items first, then cheaper"; it is stable, so the entries
    that agree on both keys keep their relative order, which in the ranking
    computed from a shopping list is the ascending order of store names;
    ranking a ranked array changes nothing; the winner is the first entry of
    the ranking. *)
Theorem sortedStores_ranking :
  (forall totals : list StoreTotal.t,
      Permutation (sortStores totals) totals
      /\ StronglySorted rankLe (sortStores totals)
      /\ (forall m c,
            filter (sameKeys m c) (sortStores totals) = filter (sameKeys m c) totals)
      /\ sortStores (sortStores totals) = sortStores totals
      /\ winnerOf (sortStores totals) = hd_error (sortStores totals))
  /\ (forall (items : list ShoppingItem.t) (m c : Z),
        StronglySorted
          (fun a b => JsString.lt (StoreTotal.storeName a) (StoreTotal.storeName b))
          (filter (sameKeys m c) (sortedStores items)))
  /\ (forall items : list ShoppingItem.t,
        winner items = hd_error (sortedStores items)).
Proof.
  split; [|split].
  - intros totals. split; [|split; [|split; [|split]]].
    + apply sort_perm.
    + apply sortStores_sorted.
    + intros m c. apply sort_filter, sameKeys_compare.
    + apply sort_id, rankLe_sorted_leq, sortStores_sorted.
    + destruct (sortStores totals); reflexivity.
  - intros items m c. unfold sortedStores, sortStores.
    rewrite sort_filter by apply sameKeys_compare.
    apply sorted_filter. unfold storeTotals, storeTotalsWith.
    apply sorted_map with (R := JsString.lt); [|apply allStoreNames_sorted].
    intros x y Hxy. rewrite !storeTotal_name. exact Hxy.
  - intros items. unfold winner, winnerOf.
    destruct (sortedStores items); reflexivity.
Qed.

(** C3. In the ranking of any array of store totals an entry with strictly
    fewer missing items stands before an entry with more, whatever their
    total costs are; the comparator orders the two strictly. With A missing
    one item at cost 500 and B missing none at cost 900, B is ranked before
    A. *)
Theorem fewer_missing_ranks_first
    (totals : list StoreTotal.t) (a b : StoreTotal.t) (i j : nat) :
  nth_error (sortStores totals) i = Some a ->
  nth_error (sortStores totals) j = Some b ->
  StoreTotal.missingItems b < StoreTotal.missingItems a ->
  (j < i)%nat
  /\ compareStores b a < 0
  /\ sortStores [retailerA; retailerB] = [retailerB; retailerA]
  /\ sortStores [retailerB; retailerA] = [retailerB; retailerA].
Proof.
  intros Ha Hb Hlt. split; [|split; [|split]]; try reflexivity.
  - destruct (Nat.lt_trichotomy j i) as [H|[H|H]]; [exact H| |].
    + subst. rewrite Ha in Hb. inversion Hb; subst. lia.
    + pose proof (sorted_nth rankLe _ (sortStores_sorted totals) i j a b H Ha Hb)
        as Hr.
      unfold rankLe in Hr. lia.
  - apply compareStores_lt, Hlt.
Qed.

(** ** Per-item best-price highlighter *)

Lemma fold_min_le (ps : list Z) (p : Z) :
  fold_left Z.min ps p <= p
  /\ forall x, In x ps -> fold_left Z.min ps p <= x.
Proof.
  revert p. induction ps as [|a ps IH]; intros p; simpl.
  - split; [lia | intros x []].
  - destruct (IH (Z.min p a)) as [H1 H2]. split; [lia|].
    intros x [<-|Hx]; [lia | apply H2, Hx].
Qed.

Lemma fold_min_In (ps : list Z) (p : Z) :
  fold_left Z.min ps p = p \/ In (fold_left Z.min ps p) ps.
Proof.
  revert p. induction ps as [|a ps IH]; intros p; simpl; [left; reflexivity|].
  destruct (IH (Z.min p a)) as [H|H]; [|right; right; exact H].
  rewrite H. destruct (Z.min_spec p a) as [[_ ->]|[_ ->]]; auto.
Qed.

Lemma Math_min_least (p : Z) (ps : list Z) (x : Z) :
  In x (p :: ps) -> Math_min p ps <= x.
Proof.
  unfold Math_min. destruct (fold_min_le ps p) as [H1 H2].
  intros [<-|Hx]; [exact H1 | apply H2, Hx].
Qed.

Lemma Math_min_In (p : Z) (ps : list Z) : In (Math_min p ps) (p :: ps).
Proof.
  unfold Math_min. destruct (fold_min_In ps p) as [->|H];
    [left; reflexivity | right; exact H].
Qed.

Lemma in_stock_prices (l : list StorePrice.t) (x : Z) :
  In x (map StorePrice.price (filter StorePrice.inStock l)) <->
  exists q, In q l /\ StorePrice.inStock q = true /\ StorePrice.price q = x.
Proof.
  rewrite in_map_iff. split.
  - intros (q & E & Hq). apply filter_In in Hq. exists q. tauto.
  - intros (q & Hq & Hs & E). exists q. split; [exact E|].
    apply filter_In. tauto.
Qed.

(** With a quote in stock, [minPrice] is the minimum in-stock price. *)
Lemma minPrice_spec (item : ShoppingItem.t) :
  (exists q, In q (ShoppingItem.prices item) /\ StorePrice.inStock q = true) ->
  minInStock (ShoppingItem.prices item) (minPrice item).
Proof.
  intros (q0 & Hq0 & Hs0). unfold minPrice, minInStock.
  pose proof (in_stock_prices (ShoppingItem.prices item)) as Hin.
  destruct (map StorePrice.price
              (filter StorePrice.inStock (ShoppingItem.prices item)))
    as [|p ps].
  - exfalso. apply (Hin (StorePrice.price q0)). exists q0. auto.
  - split.
    + apply Hin, Math_min_In.
    + intros q Hq Hs. apply Math_min_least, Hin. exists q. auto.
Qed.

Lemma minInStock_unique (l : list StorePrice.t) (m m' : Z) :
  minInStock l m -> minInStock l m' -> m = m'.
Proof.
  intros [(q & Hq & Hs & E) Hle] [(q' & Hq' & Hs' & E') Hle'].
  specialize (Hle q' Hq' Hs'). specialize (Hle' q Hq Hs). lia.
Qed.

Lemma flagged_iff (stores : list jsstring) (item : ShoppingItem.t)
    (q : StorePrice.t) :
  flagged stores item q <->
  In (StorePrice.storeName q) stores
  /\ cellQuote item (StorePrice.storeName q) = Some q
  /\ isBest item (StorePrice.storeName q) = true.
Proof.
  unfold flagged, tableRow. simpl. rewrite in_map_iff. split.
  - intros (store & E & Hin). inversion E as [[E1 E2 E3]]. subst store.
    rewrite E2. tauto.
  - intros (Hin & Hc & Hb). exists (StorePrice.storeName q).
    rewrite Hc, Hb. tauto.
Qed.

Lemma isBest_sound (item : ShoppingItem.t) (q : StorePrice.t) :
  cellQuote item (StorePrice.storeName q) = Some q ->
  isBest item (StorePrice.storeName q) = true ->
  In q (ShoppingItem.prices item)
  /\ StorePrice.inStock q = true
  /\ minInStock (ShoppingItem.prices item) (StorePrice.price q).
Proof.
  intros Hc Hb. unfold isBest in Hb. rewrite Hc in Hb.
  apply andb_true_iff in Hb as [Hs Hp]. apply Z.eqb_eq in Hp.
  unfold cellQuote in Hc. apply find_some in Hc as [Hq _].
  split; [exact Hq | split; [exact Hs|]].
  rewrite Hp. apply minPrice_spec. exists q. auto.
Qed.

Lemma cellQuote_unique (item : ShoppingItem.t) (q : StorePrice.t) :
  uniqueStores item -> In q (ShoppingItem.prices item) ->
  cellQuote item (StorePrice.storeName q) = Some q.
Proof.
  intros Hu Hq. unfold cellQuote.
  pose proof (find_unique (StorePrice.storeName q) _ Hu) as Hf.
  assert (Hin : In q (filter (fun p => JsString.eqb (StorePrice.storeName p)
                                         (StorePrice.storeName q))
                        (ShoppingItem.prices item))).
  { apply filter_In. split; [exact Hq | apply JsString_eqb_refl]. }
  rewrite Hf in Hin.
  destruct (find _ (ShoppingItem.prices item)) as [q'|]; [|destruct Hin].
  destruct Hin as [->|[]]. reflexivity.
Qed.

(** C5 as stated fails for an item with two quotes of one store: the row
    shows the first of them, at 100, the minimum in-stock price is the 90 of
    the second, and no cell is highlighted although the second quote is in
    stock at the minimum. *)
Lemma second_quote_never_flagged : ~ flagsExactlyMinimum [twiceItem] twiceItem.
Proof.
  intros H.
  assert (Hin : In (quote (str "X") 90 true) (ShoppingItem.prices twiceItem))
    by (right; left; reflexivity).
  assert (Hmin : StorePrice.inStock (quote (str "X") 90 true) = true
                 /\ minInStock (ShoppingItem.prices twiceItem)
                      (StorePrice.price (quote (str "X") 90 true))).
  { split; [reflexivity|]. split.
    - exists (quote (str "X") 90 true). auto.
    - intros q [<-|[<-|[]]] _; simpl; lia. }
  apply (H _ Hin) in Hmin. apply flagged_iff in Hmin as (_ & Hc & _).
  vm_compute in Hc. discriminate.
Qed.

(** C5, amended. In the row of an item the highlighted cells hold in-stock quotes at
    the minimum in-stock price, and every in-stock quote at that minimum that
    the row shows is highlighted, ties included; when the item has at most
    one quote per store (the data model's invariant) the row shows every
    quote, so exactly the in-stock quotes at the minimum are highlighted; when
    no quote is in stock nothing is highlighted. In the example X and Z are
    highlighted and Y is not. *)
Theorem highlighter_flags_minimum
    (items : list ShoppingItem.t) (item : ShoppingItem.t) :
  In item items ->
  (forall q,
      flagged (allStoreNames items) item q ->
      In q (ShoppingItem.prices item)
      /\ StorePrice.inStock q = true
      /\ minInStock (ShoppingItem.prices item) (StorePrice.price q))
  /\ (forall q,
        cellQuote item (StorePrice.storeName q) = Some q ->
        StorePrice.inStock q = true ->
        minInStock (ShoppingItem.prices item) (StorePrice.price q) ->
        flagged (allStoreNames items) item q)
  /\ (uniqueStores item ->
      forall q,
        In q (ShoppingItem.prices item) ->
        (flagged (allStoreNames items) item q <->
         StorePrice.inStock q = true
         /\ minInStock (ShoppingItem.prices item) (StorePrice.price q)))
  /\ ((forall q, In q (ShoppingItem.prices item) -> StorePrice.inStock q = false) ->
      forall q, ~ flagged (allStoreNames items) item q)
  /\ Row.cells (tableRow (allStoreNames [exampleItem]) exampleItem)
     = [ Cell.mk (str "X") (Some (quote (str "X") 100 true)) true;
         Cell.mk (str "Y") (Some (quote (str "Y") 90 false)) false;
         Cell.mk (str "Z") (Some (quote (str "Z") 100 true)) true ].
Proof.
  intros Hitem.
  assert (Hshown : forall q,
             cellQuote item (StorePrice.storeName q) = Some q ->
             StorePrice.inStock q = true ->
             minInStock (ShoppingItem.prices item) (StorePrice.price q) ->
             flagged (allStoreNames items) item q).
  { intros q Hc Hs Hm. apply flagged_iff. split; [|split; [exact Hc|]].
    - apply allStoreNames_In. exists item, q.
      unfold cellQuote in Hc. apply find_some in Hc as [Hq _]. auto.
    - unfold isBest. rewrite Hc, Hs. simpl.
      apply Z.eqb_eq. eapply minInStock_unique; [exact Hm|].
      apply minPrice_spec. exists q.
      unfold cellQuote in Hc. apply find_some in Hc as [Hq _]. auto. }
  split; [|split; [exact Hshown|split; [|split]]]; [| | |reflexivity].
  - intros q Hf. apply flagged_iff in Hf as (_ & Hc & Hb).
    apply isBest_sound; assumption.
  - intros Hu q Hq. split.
    + intros Hf. apply flagged_iff in Hf as (_ & Hc & Hb).
      destruct (isBest_sound item q Hc Hb) as (_ & Hs & Hm). auto.
    + intros [Hs Hm]. apply Hshown; [|exact Hs|exact Hm].
      apply cellQuote_unique; assumption.
  - intros Hnone q Hf. apply flagged_iff in Hf as (_ & Hc & Hb).
    destruct (isBest_sound item q Hc Hb) as (Hq & Hs & _).
    rewrite (Hnone q Hq) in Hs. discriminate.
Qed.

(** ** Best price of a priced item *)

(** The reduction keeps the last of the cheapest quotes. *)
Lemma fold_cheaper_last (rest : list StorePrice.t) :
  forall first,
  exists l1 l2,
    first :: rest = l1 ++ fold_left cheaper rest first :: l2
    /\ (forall q, In q l1 ->
          StorePrice.price (fold_left cheaper rest first) <= StorePrice.price q)
    /\ (forall q, In q l2 ->
          StorePrice.price (fold_left cheaper rest first) < StorePrice.price q).
Proof.
  induction rest as [|a rest IH]; intros first.
  - exists [], []. simpl. split; [reflexivity|]. split; intros q [].
  - cbn [fold_left]. unfold cheaper at 2 4 6.
    destruct (StorePrice.price first <? StorePrice.price a) eqn:E.
    + apply Z.ltb_lt in E.
      destruct (IH first) as (l1 & l2 & Hd & H1 & H2).
      set (best := fold_left cheaper rest first) in *.
      destruct l1 as [|x l1]; simpl in Hd; injection Hd as Hx Hr.
      * exists [], (a :: l2). simpl. split; [congruence|].
        split; [intros q []|].
        intros q [<-|Hq]; [rewrite <- Hx; exact E | apply H2, Hq].
      * subst x. exists (first :: a :: l1), l2. simpl.
        split; [congruence|]. split; [|exact H2].
        pose proof (H1 first (or_introl eq_refl)) as Hf.
        intros q [<-|[<-|Hq]]; [exact Hf | lia | apply H1; right; exact Hq].
    + apply Z.ltb_ge in E.
      destruct (IH a) as (l1 & l2 & Hd & H1 & H2).
      set (best := fold_left cheaper rest a) in *.
      exists (first :: l1), l2. rewrite Hd. simpl.
      split; [reflexivity|]. split; [|exact H2].
      assert (Ha : StorePrice.price best <= StorePrice.price a).
      { destruct l1 as [|x l1]; simpl in Hd; injection Hd as Hx Hr.
        - rewrite <- Hx. lia.
        - subst x. apply H1. left; reflexivity. }
      intros q [<-|Hq]; [lia | apply H1, Hq].
Qed.

Lemma filter_nil_none {A : Type} (f : A -> bool) (l : list A) :
  filter f l = [] <-> forall x, In x l -> f x = false.
Proof.
  induction l as [|a l IH]; simpl.
  - split; [intros _ x [] | reflexivity].
  - destruct (f a) eqn:E.
    + split; [discriminate|]. intros H. specialize (H a (or_introl eq_refl)).
      congruence.
    + rewrite IH. split.
      * intros H x [<-|Hx]; [exact E | apply H, Hx].
      * intros H x Hx. apply H. right; exact Hx.
Qed.

(** C6 as stated fails: with X and Z both in stock at the minimum price 100
    the stored best store is Z, the last of the two, where the first
    cheapest in-stock quote is the one of X; and a parsed item without a
    quote in stock that carries a best store and a best price keeps them. *)
Lemma bestStore_not_first_tie :
  ~ bestIsFirstCheapest exampleParsed /\ ~ bestIsFirstCheapest staleParsed.
Proof.
  unfold bestIsFirstCheapest.
  split; intros [H _]; vm_compute in H; discriminate.
Qed.

(** C6, amended. Post-processing keeps the parsed fields. With a quote in
    stock, [bestPrice] is the minimum in-stock price and [bestStore] is the
    store of the last in-stock quote at that price: every in-stock quote
    before it costs at least as much and every in-stock quote after it costs
    strictly more. Without a quote in stock the item is returned as it was
    parsed, so both fields are absent when the parsed item has none. *)
Theorem postProcess_best (item : ParsedItem.t) :
  (ShoppingItem.id (postProcess item) = ParsedItem.id item
   /\ ShoppingItem.name (postProcess item) = ParsedItem.name item
   /\ ShoppingItem.originalAmount (postProcess item) = ParsedItem.originalAmount item
   /\ ShoppingItem.prices (postProcess item) = ParsedItem.prices item)
  /\ ((exists q, In q (ParsedItem.prices item) /\ StorePrice.inStock q = true) ->
      exists l1 best l2,
        filter StorePrice.inStock (ParsedItem.prices item) = l1 ++ best :: l2
        /\ (forall q, In q l1 -> StorePrice.price best <= StorePrice.price q)
        /\ (forall q, In q l2 -> StorePrice.price best < StorePrice.price q)
        /\ minInStock (ParsedItem.prices item) (StorePrice.price best)
        /\ ShoppingItem.bestStore (postProcess item) = Some (StorePrice.storeName best)
        /\ ShoppingItem.bestPrice (postProcess item) = Some (StorePrice.price best))
  /\ ((forall q, In q (ParsedItem.prices item) -> StorePrice.inStock q = false) ->
      postProcess item = item
      /\ (ShoppingItem.bestStore item = None -> ShoppingItem.bestPrice item = None ->
          ShoppingItem.bestStore (postProcess item) = None
          /\ ShoppingItem.bestPrice (postProcess item) = None)).
Proof.
  unfold postProcess. split; [|split].
  - destruct (filter StorePrice.inStock (ParsedItem.prices item));
      simpl; auto.
  - intros (q0 & Hq0 & Hs0).
    assert (Hin0 : In q0 (filter StorePrice.inStock (ParsedItem.prices item)))
      by (apply filter_In; auto).
    pose proof (fun q => filter_In StorePrice.inStock q (ParsedItem.prices item))
      as Hf.
    destruct (filter StorePrice.inStock (ParsedItem.prices item))
      as [|first rest]; [destruct Hin0|].
    destruct (fold_cheaper_last rest first) as (l1 & l2 & Hd & H1 & H2).
    exists l1, (fold_left cheaper rest first), l2. simpl.
    split; [exact Hd|]. split; [exact H1|]. split; [exact H2|].
    split; [|split; reflexivity].
    assert (Hbest : In (fold_left cheaper rest first) (first :: rest)).
    { rewrite Hd. apply in_elt. }
    split.
    + exists (fold_left cheaper rest first).
      apply Hf in Hbest. tauto.
    + intros q Hq Hs.
      assert (Hin : In q (first :: rest)) by (apply Hf; auto).
      rewrite Hd in Hin. apply in_app_or in Hin as [Hin|[<-|Hin]].
      * apply H1, Hin.
      * lia.
      * apply Z.lt_le_incl, H2, Hin.
  - intros Hnone. apply filter_nil_none in Hnone. rewrite Hnone. auto.
Qed.

(** ** Session state *)

Lemma mapi_from_nth {A B : Type} (f : A -> nat -> B) (l : list A) :
  forall k i,
    nth_error (mapi_from k f l) i
    = option_map (fun x => f x (k + i)%nat) (nth_error l i).
Proof.
  induction l as [|x l IH]; intros k i.
  - destruct i; reflexivity.
  - destruct i as [|i]; simpl.
    + rewrite Nat.add_0_r. reflexivity.
    + rewrite IH. rewrite Nat.add_succ_r. reflexivity.
Qed.

Lemma mapi_from_length {A B : Type} (f : A -> nat -> B) (l : list A) :
  forall k, length (mapi_from k f l) = length l.
Proof. induction l as [|x l IH]; intros k; simpl; [|rewrite IH]; reflexivity. Qed.

Lemma mapi_from_In {A B : Type} (f : A -> nat -> B) (l : list A) (y : B) :
  forall k, In y (mapi_from k f l) -> exists x i, In x l /\ y = f x i.
Proof.
  induction l as [|x l IH]; intros k; simpl; [intros []|].
  intros [<-|H].
  - exists x, k. auto.
  - destruct (IH _ H) as (x' & i & Hx & E). exists x', i. auto.
Qed.

(** C8 as stated fails: after the prices of a first plan have been
    estimated, a new plan that lists no product leaves the priced shopping
    list in place. *)
Lemma empty_plan_keeps_prices : ~ replacedWholesale planNone pricedState.
Proof. unfold replacedWholesale. vm_compute. discriminate. Qed.

(** C8, amended. A new plan that lists at least one product replaces the
    shopping list by one skeleton item per entry, numbered from 0, with the
    entry's name and amount and without quotes or best price, whatever the
    previous list was, and returns to the idle status; a new plan that lists
    no product leaves the shopping list and the status as they were. The
    plan is stored in both cases and nothing else changes. *)
Theorem handlePlanUpdate_effect (newPlan : AIPlanResponse.t) (s : App.state) :
  (AIPlanResponse.shoppingList newPlan <> [] ->
   App.shoppingList (App.handlePlanUpdate newPlan s)
   = mapi App.skeleton (AIPlanResponse.shoppingList newPlan)
   /\ length (App.shoppingList (App.handlePlanUpdate newPlan s))
      = length (AIPlanResponse.shoppingList newPlan)
   /\ (forall i, nth_error (App.shoppingList (App.handlePlanUpdate newPlan s)) i
                 = option_map
                     (fun p => ShoppingItem.mk (JsString.toString i)
                                 (PlanItem.name p) (PlanItem.amount p) [] None None)
                     (nth_error (AIPlanResponse.shoppingList newPlan) i))
   /\ (forall item, In item (App.shoppingList (App.handlePlanUpdate newPlan s)) ->
                    ShoppingItem.prices item = []
                    /\ ShoppingItem.bestStore item = None
                    /\ ShoppingItem.bestPrice item = None)
   /\ (forall s', App.shoppingList (App.handlePlanUpdate newPlan s')
                  = App.shoppingList (App.handlePlanUpdate newPlan s))
   /\ App.status (App.handlePlanUpdate newPlan s) = IDLE)
  /\ (AIPlanResponse.shoppingList newPlan = [] ->
      App.shoppingList (App.handlePlanUpdate newPlan s) = App.shoppingList s
      /\ App.status (App.handlePlanUpdate newPlan s) = App.status s)
  /\ App.currentPlan (App.handlePlanUpdate newPlan s) = Some newPlan
  /\ App.apiKey (App.handlePlanUpdate newPlan s) = App.apiKey s
  /\ App.activeTab (App.handlePlanUpdate newPlan s) = App.activeTab s
  /\ App.preferences (App.handlePlanUpdate newPlan s) = App.preferences s.
Proof.
  unfold App.handlePlanUpdate.
  destruct (AIPlanResponse.shoppingList newPlan) as [|p l] eqn:E.
  - simpl. split; [intros H; contradiction|]. repeat split.
  - assert (Hpos : (0 <? length (p :: l))%nat = true) by reflexivity.
    rewrite Hpos. cbn [App.shoppingList App.status App.currentPlan App.apiKey
                         App.activeTab App.preferences App.setStatus
                         App.setShoppingList App.setCurrentPlan].
    split; [intros _|split; [discriminate|repeat split]].
    split; [reflexivity|]. split; [apply mapi_from_length|].
    split; [|split; [|split; reflexivity]].
    + intros i. unfold mapi. rewrite mapi_from_nth. reflexivity.
    + intros item Hin. apply mapi_from_In in Hin as (x & i & _ & ->).
      simpl. auto.
Qed.

(** ** Rendering of the comparison view *)

Lemma nil_iff_no_member {A : Type} (l : list A) : l = [] <-> forall x, ~ In x l.
Proof.
  destruct l as [|a l]; split; try reflexivity; try discriminate.
  - intros _ x [].
  - intros H. exfalso. apply (H a). left; reflexivity.
Qed.

Lemma sortedStores_nil (items : list ShoppingItem.t) :
  sortedStores items = [] <->
  forall item, In item items -> ShoppingItem.prices item = [].
Proof.
  unfold sortedStores, sortStores, storeTotals, storeTotalsWith.
  change (storeTotalWith exact items) with (storeTotal items).
  change (allStoreNamesOf items) with (allStoreNames items).
  split.
  - intros H item Hi. apply nil_iff_no_member. intros q Hq.
    assert (Hs : In (StorePrice.storeName q) (allStoreNames items)).
    { apply allStoreNames_In. exists item, q. auto. }
    assert (Ht : In (storeTotal items (StorePrice.storeName q))
                   (sort compareStores (map (storeTotal items) (allStoreNames items)))).
    { apply sort_In, in_map, Hs. }
    rewrite H in Ht. destruct Ht.
  - intros H. apply nil_iff_no_member. intros t Ht.
    apply sort_In, in_map_iff in Ht as (s & _ & Hs).
    apply allStoreNames_In in Hs as (item & q & Hi & Hq & _).
    rewrite (H item Hi) in Hq. destruct Hq.
Qed.

(** The comparison view raises exactly on a non-empty ready list without
    any quote. *)
Lemma PriceParser_throws_iff (status : AppStatus) (items : list ShoppingItem.t) :
  (exists e, PriceParser status items = Throw e) <->
  status = READY /\ items <> []
  /\ forall item, In item items -> ShoppingItem.prices item = [].
Proof.
  unfold PriceParser, winnerOf.
  destruct status; simpl; try (split; [intros [e H]; discriminate | intros [H _]; discriminate]).
  destruct items as [|item items]; simpl (0 <? _)%nat; cbv iota.
  - split; [intros [e H]; discriminate | intros (_ & H & _); contradiction].
  - pose proof (sortedStores_nil (item :: items)) as Hnil.
    destruct (sortedStores (item :: items)) as [|w sorted]; simpl.
    + split; [intros _|intros _; exists TypeError; reflexivity].
      split; [reflexivity|]. split; [discriminate|]. apply Hnil. reflexivity.
    + split; [intros [e H]; discriminate|].
      intros (_ & _ & H). apply Hnil in H. discriminate.
Qed.

(** C7 (the source departs from it). A priced list whose only item carries
    no quote reaches the ready branch; the retailer universe, the totals and
    the ranking are empty, the winner is undefined and reading its store
    name raises a [TypeError]. An empty shopping list is safe: it shows the
    start prompt. *)
Theorem PriceParser_raises_without_quotes :
  App.status noQuotesState = READY
  /\ App.shoppingList noQuotesState = map postProcess noQuotes
  /\ allStoreNames (App.shoppingList noQuotesState) = []
  /\ sortedStores (App.shoppingList noQuotesState) = []
  /\ winner (App.shoppingList noQuotesState) = None
  /\ App.pricesTab noQuotesState = Throw TypeError
  /\ PriceParser READY [] = Ok StartPrompt
  /\ allStoreNames [] = [] /\ storeTotals [] = [] /\ winner [] = None.
Proof. repeat split. Qed.

(** ** Validation of tool-call arguments *)


Lemma buildPlanData_shape (args : jsval) (p : PlanData.t) :
  buildPlanData args = Ok p ->
  exists meals shoppingList cost,
    getProp args (str "meals") = Ok meals
    /\ getProp args (str "shoppingList") = Ok shoppingList
    /\ getProp args (str "totalEstimatedCost") = Ok cost
    /\ PlanData.meals p = (if Array_isArray meals then meals else JArray [])
    /\ PlanData.shoppingList p
       = (if Array_isArray shoppingList then shoppingList else JArray [])
    /\ PlanData.totalEstimatedCost p = (if isNumber cost then cost else JNumber 0).
Proof.
  unfold buildPlanData, bind. intros H.
  destruct (getProp args (str "meals")) as [meals|]; [|discriminate].
  destruct (getProp args (str "shoppingList")) as [shoppingList|]; [|discriminate].
  destruct (getProp args (str "totalEstimatedCost")) as [cost|]; [|discriminate].
  injection H as <-. exists meals, shoppingList, cost. repeat split.
Qed.

Lemma buildPlanData_wellShaped (args : jsval) (p : PlanData.t) :
  buildPlanData args = Ok p -> wellShaped p.
Proof.
  intros H. unfold wellShaped.
  destruct (buildPlanData_shape args p H)
    as (meals & shoppingList & cost & _ & _ & _ & -> & -> & ->).
  repeat split.
  - destruct (Array_isArray meals) eqn:E; [exact E | reflexivity].
  - destruct (Array_isArray shoppingList) eqn:E; [exact E | reflexivity].
  - destruct (isNumber cost) eqn:E; [exact E | reflexivity].
Qed.








(** ** Budget distribution *)

Section AnalyticsFacts.

Context {num : Type} (A : Arith.t num).

Variable toLowerCase : jsstring -> jsstring.

Lemma existsb5 {T : Type} (f : T -> bool) (a b c d e : T) :
  existsb f [a; b; c; d; e] = f a || f b || f c || f d || f e.
Proof. cbn [existsb]. rewrite orb_false_r, !orb_assoc. reflexivity. Qed.

Lemma existsb4 {T : Type} (f : T -> bool) (a b c d : T) :
  existsb f [a; b; c; d] = f a || f b || f c || f d.
Proof. cbn [existsb]. rewrite orb_false_r, !orb_assoc. reflexivity. Qed.

(** Every item is added to the one bucket its category selects. *)
Lemma addItem_addAt (data : list (Bucket.over num)) (item : ShoppingItem.over num) :
  addItem A toLowerCase data item
  = addAt A (category (toLowerCase (ShoppingItem.name item)))
      (bestPriceOr0 A item) data.
Proof.
  unfold addItem, category, matchesAny, meatFish, vegFruit, dairy.
  rewrite !existsb5, existsb4.
  repeat match goal with
         | |- (if ?c then _ else _) = _ => destruct c
         end; reflexivity.
Qed.

Lemma category_range (n : jsstring) :
  category n = 0%nat \/ category n = 1%nat \/ category n = 2%nat
  \/ category n = 3%nat.
Proof.
  unfold category.
  destruct (matchesAny n meatFish); [auto|].
  destruct (matchesAny n vegFruit); [auto|].
  destruct (matchesAny n dairy); auto.
Qed.

(** The running value of bucket [k]: the items of the category seen so far,
    added in list order to the start value. *)
Lemma fold_addItem (items : list (ShoppingItem.over num)) :
  forall n0 v0 n1 v1 n2 v2 n3 v3,
    fold_left (addItem A toLowerCase) items
      [Bucket.mk n0 v0; Bucket.mk n1 v1; Bucket.mk n2 v2; Bucket.mk n3 v3]
    = [ Bucket.mk n0
          (fold_left (Arith.add A)
             (map (bestPriceOr0 A)
                (filter (fun item =>
                           (category (toLowerCase (ShoppingItem.name item)) =? 0)%nat)
                   items)) v0);
        Bucket.mk n1
          (fold_left (Arith.add A)
             (map (bestPriceOr0 A)
                (filter (fun item =>
                           (category (toLowerCase (ShoppingItem.name item)) =? 1)%nat)
                   items)) v1);
        Bucket.mk n2
          (fold_left (Arith.add A)
             (map (bestPriceOr0 A)
                (filter (fun item =>
                           (category (toLowerCase (ShoppingItem.name item)) =? 2)%nat)
                   items)) v2);
        Bucket.mk n3
          (fold_left (Arith.add A)
             (map (bestPriceOr0 A)
                (filter (fun item =>
                           (category (toLowerCase (ShoppingItem.name item)) =? 3)%nat)
                   items)) v3) ].
Proof.
  induction items as [|item items IH]; intros n0 v0 n1 v1 n2 v2 n3 v3.
  - reflexivity.
  - cbn [fold_left filter]. rewrite addItem_addAt.
    destruct (category_range (toLowerCase (ShoppingItem.name item)))
      as [E|[E|[E|E]]]; rewrite E;
      cbn [addAt Nat.eqb Bucket.name Bucket.value map fold_left];
      apply IH.
Qed.

Lemma Analytics_buckets (item : ShoppingItem.over num)
    (items : list (ShoppingItem.over num)) :
  Analytics A toLowerCase (item :: items)
  = Some [ Bucket.mk (str "Мясо/Рыба") (bucketSum A toLowerCase 0 (item :: items));
           Bucket.mk (str "Овощи/Фрукты") (bucketSum A toLowerCase 1 (item :: items));
           Bucket.mk (str "Молочка") (bucketSum A toLowerCase 2 (item :: items));
           Bucket.mk (str "Бакалея") (bucketSum A toLowerCase 3 (item :: items)) ].
Proof.
  unfold Analytics. cbn [length Nat.eqb]. unfold data0.
  rewrite fold_addItem. reflexivity.
Qed.

(** With exact additions a sum starts with its first term. *)
Hypothesis exactA : exactArith A.

Lemma add_left_comm (x y z : num) :
  Arith.add A x (Arith.add A y z) = Arith.add A y (Arith.add A x z).
Proof.
  destruct exactA as (Hassoc & Hcomm & _).
  rewrite !Hassoc, (Hcomm x y). reflexivity.
Qed.

Lemma fold_add_start (l : list num) (x y : num) :
  fold_left (Arith.add A) l (Arith.add A x y)
  = Arith.add A x (fold_left (Arith.add A) l y).
Proof.
  destruct exactA as (Hassoc & _).
  revert y. induction l as [|a l IH]; intros y; simpl; [reflexivity|].
  rewrite <- Hassoc. apply IH.
Qed.

Lemma sumWith_cons (x : num) (l : list num) :
  sumWith A (x :: l) = Arith.add A x (sumWith A l).
Proof.
  destruct exactA as (_ & Hcomm & _).
  unfold sumWith. simpl. rewrite (Hcomm (Arith.zero A) x).
  apply fold_add_start.
Qed.

Lemma bestPriceOr0_exact (item : ShoppingItem.over num) :
  bestPriceOr0 A item = bestOrZero A item.
Proof.
  destruct exactA as (_ & _ & _ & Hfalsy).
  unfold bestPriceOr0, bestOrZero.
  destruct (ShoppingItem.bestPrice item) as [p|]; [|reflexivity].
  destruct (Arith.falsy A p) eqn:E; [|reflexivity].
  symmetry. apply Hfalsy, E.
Qed.

Lemma bucketSum_cons (k : nat) (item : ShoppingItem.over num)
    (items : list (ShoppingItem.over num)) :
  bucketSum A toLowerCase k (item :: items)
  = if (category (toLowerCase (ShoppingItem.name item)) =? k)%nat
    then Arith.add A (bestPriceOr0 A item) (bucketSum A toLowerCase k items)
    else bucketSum A toLowerCase k items.
Proof.
  unfold bucketSum. cbn [filter].
  destruct (category (toLowerCase (ShoppingItem.name item)) =? k)%nat;
    [|reflexivity].
  cbn [map]. apply sumWith_cons.
Qed.

Lemma buckets_total_exact (items : list (ShoppingItem.over num)) :
  Arith.add A
    (Arith.add A
       (Arith.add A (bucketSum A toLowerCase 0 items)
          (bucketSum A toLowerCase 1 items))
       (bucketSum A toLowerCase 2 items))
    (bucketSum A toLowerCase 3 items)
  = totalBest A items.
Proof.
  pose proof exactA as (Hassoc & Hcomm & Hzero & _).
  induction items as [|item items IH].
  - unfold bucketSum, totalBest, sumWith. simpl. rewrite !Hzero. reflexivity.
  - unfold totalBest in *. cbn [map]. rewrite sumWith_cons, <- IH.
    rewrite <- bestPriceOr0_exact, !bucketSum_cons.
    destruct (category_range (toLowerCase (ShoppingItem.name item)))
      as [E|[E|[E|E]]]; rewrite E; cbn [Nat.eqb]; rewrite <- !Hassoc.
    + reflexivity.
    + apply add_left_comm.
    + rewrite (add_left_comm (bucketSum A toLowerCase 1 items)).
      apply add_left_comm.
    + rewrite (add_left_comm (bucketSum A toLowerCase 2 items)).
      rewrite (add_left_comm (bucketSum A toLowerCase 1 items)).
      apply add_left_comm.
Qed.

End AnalyticsFacts.

Lemma exact_is_exact : exactArith exact.
Proof.
  repeat split; simpl; intros; lia.
Qed.

(** C10 as stated fails in the arithmetic of the language: with meat at
    0.2, cheese at 0.3 and fish at 0.1 the first bucket holds 0.2 + 0.1, the
    four buckets add up to 0.6000000000000001 and the best prices in list
    order to 0.6. The three names are in lower case already, so lower-casing
    leaves them as they are. *)
Lemma buckets_do_not_add_up : ~ bucketsAddUp double (fun s => s) roundingList.
Proof.
  unfold bucketsAddUp. intros H.
  apply (f_equal (fun x => PrimFloat.eqb x (totalBest double roundingList))) in H.
  vm_compute in H. discriminate.
Qed.

(** C10, amended. For a non-empty shopping list the chart data are the four
    buckets in their fixed order; every item is added to exactly one of them,
    the one selected by the first keyword group its lower-cased name matches
    and the last one when none matches, with its best price, or 0 when that
    is absent or falsy; each bucket holds the prices of its items added up in
    list order. When the additions are exact, the four values add up to the
    sum of the best prices of all items. *)
Theorem analytics_buckets_partition
    (num : Type) (A : Arith.t num)
    (toLowerCase : jsstring -> jsstring) (items : list (ShoppingItem.over num)) :
  items <> [] ->
  Analytics A toLowerCase items
  = Some [ Bucket.mk (str "Мясо/Рыба") (bucketSum A toLowerCase 0 items);
           Bucket.mk (str "Овощи/Фрукты") (bucketSum A toLowerCase 1 items);
           Bucket.mk (str "Молочка") (bucketSum A toLowerCase 2 items);
           Bucket.mk (str "Бакалея") (bucketSum A toLowerCase 3 items) ]
  /\ (forall data item,
        addItem A toLowerCase data item
        = addAt A (category (toLowerCase (ShoppingItem.name item)))
            (match ShoppingItem.bestPrice item with
             | Some p => if Arith.falsy A p then Arith.zero A else p
             | None => Arith.zero A
             end)
            data)
  /\ (forall n, (category n < 4)%nat)
  /\ (forall n, category n = 3%nat <->
                matchesAny n meatFish = false /\ matchesAny n vegFruit = false
                /\ matchesAny n dairy = false)
  /\ (exactArith A ->
      bucketsAddUp A toLowerCase items
      /\ Arith.add A
           (Arith.add A
              (Arith.add A (bucketSum A toLowerCase 0 items)
                 (bucketSum A toLowerCase 1 items))
              (bucketSum A toLowerCase 2 items))
           (bucketSum A toLowerCase 3 items)
         = totalBest A items).
Proof.
  intros Hne.
  assert (HA : Analytics A toLowerCase items
               = Some [ Bucket.mk (str "Мясо/Рыба") (bucketSum A toLowerCase 0 items);
                        Bucket.mk (str "Овощи/Фрукты") (bucketSum A toLowerCase 1 items);
                        Bucket.mk (str "Молочка") (bucketSum A toLowerCase 2 items);
                        Bucket.mk (str "Бакалея") (bucketSum A toLowerCase 3 items) ]).
  { destruct items as [|item items]; [contradiction|]. apply Analytics_buckets. }
  split; [exact HA|]. split; [|split; [|split; [|]]].
  - intros data item. apply addItem_addAt.
  - intros n. destruct (category_range n) as [E|[E|[E|E]]]; rewrite E; lia.
  - intros n. unfold category.
    destruct (matchesAny n meatFish); [split; [discriminate | intros [H _]; discriminate]|].
    destruct (matchesAny n vegFruit); [split; [discriminate | intros (_ & H & _); discriminate]|].
    destruct (matchesAny n dairy); [split; [discriminate | intros (_ & _ & H); discriminate]|].
    tauto.
  - intros Hex.
    pose proof (buckets_total_exact A toLowerCase Hex items) as Ht.
    split; [|exact Ht].
    unfold bucketsAddUp. rewrite HA. unfold bucketsTotal, sumWith. simpl.
    destruct Hex as (_ & _ & Hzero & _). rewrite Hzero. exact Ht.
Qed.

(** ** The theorems at the examples of the specification *)

Lemma exampleListDouble_unique :
  forall item, In item exampleListDouble -> uniqueStores item.
Proof.
  intros item [<-|[<-|[]]]; unfold uniqueStores; simpl;
    repeat constructor; simpl; intuition discriminate.
Defined.

Lemma storeTotals_correct_witness :
  (forall item, In item exampleListDouble -> uniqueStores item)
  /\ storeTotalsWith double exampleListDouble
     = map (fun s =>
              StoreTotal.mk s (spec_totalCost double s exampleListDouble)
                (spec_missingItems s exampleListDouble))
         (allStoreNamesOf exampleListDouble).
Proof.
  split; [exact exampleListDouble_unique|].
  exact (proj1 storeTotals_correct float double exampleListDouble
           exampleListDouble_unique).
Defined.

Lemma fewer_missing_ranks_first_witness :
  nth_error (sortStores [retailerA; retailerB]) 1 = Some retailerA
  /\ nth_error (sortStores [retailerA; retailerB]) 0 = Some retailerB
  /\ StoreTotal.missingItems retailerB < StoreTotal.missingItems retailerA
  /\ (0 < 1)%nat.
Proof.
  assert (Ha : nth_error (sortStores [retailerA; retailerB]) 1 = Some retailerA)
    by reflexivity.
  assert (Hb : nth_error (sortStores [retailerA; retailerB]) 0 = Some retailerB)
    by reflexivity.
  assert (Hlt : StoreTotal.missingItems retailerB < StoreTotal.missingItems retailerA)
    by reflexivity.
  split; [exact Ha | split; [exact Hb | split; [exact Hlt|]]].
  exact (proj1 (fewer_missing_ranks_first _ _ _ 1%nat 0%nat Ha Hb Hlt)).
Defined.

Lemma exampleItem_unique : uniqueStores exampleItem.
Proof.
  unfold uniqueStores; simpl; repeat constructor; simpl; intuition discriminate.
Defined.

Lemma exampleItem_min : minInStock exampleQuotes 100.
Proof.
  split.
  - exists (quote (str "X") 100 true). simpl. auto.
  - intros q [<-|[<-|[<-|[]]]]; simpl; intros H; [lia | discriminate | lia].
Defined.

Lemma highlighter_flags_minimum_witness :
  In exampleItem [exampleItem]
  /\ flagged (allStoreNames [exampleItem]) exampleItem (quote (str "X") 100 true)
  /\ flagged (allStoreNames [exampleItem]) exampleItem (quote (str "Z") 100 true)
  /\ ~ flagged (allStoreNames [exampleItem]) exampleItem (quote (str "Y") 90 false).
Proof.
  assert (Hin : In exampleItem [exampleItem]) by (left; reflexivity).
  destruct (highlighter_flags_minimum [exampleItem] exampleItem Hin)
    as (Hsound & _ & Hexact & _ & _).
  split; [exact Hin|]. split; [|split].
  - apply (Hexact exampleItem_unique); [simpl; auto|].
    split; [reflexivity | exact exampleItem_min].
  - apply (Hexact exampleItem_unique); [simpl; auto|].
    split; [reflexivity | exact exampleItem_min].
  - intros Hf. destruct (Hsound _ Hf) as (_ & Hs & _). discriminate Hs.
Defined.

Lemma postProcess_best_witness :
  (exists q, In q (ParsedItem.prices exampleParsed) /\ StorePrice.inStock q = true)
  /\ ShoppingItem.bestStore (postProcess exampleParsed) = Some (str "Z")
  /\ ShoppingItem.bestPrice (postProcess exampleParsed) = Some 100
  /\ exists l1 best l2,
      filter StorePrice.inStock (ParsedItem.prices exampleParsed) = l1 ++ best :: l2
      /\ (forall q, In q l1 -> StorePrice.price best <= StorePrice.price q)
      /\ (forall q, In q l2 -> StorePrice.price best < StorePrice.price q)
      /\ ShoppingItem.bestStore (postProcess exampleParsed)
         = Some (StorePrice.storeName best).
Proof.
  assert (Hex : exists q, In q (ParsedItem.prices exampleParsed)
                          /\ StorePrice.inStock q = true).
  { exists (quote (str "X") 100 true). simpl. auto. }
  split; [exact Hex|]. split; [reflexivity|]. split; [reflexivity|].
  destruct (proj1 (proj2 (postProcess_best exampleParsed)) Hex)
    as (l1 & best & l2 & Hd & H1 & H2 & _ & Hs & _).
  exists l1, best, l2. auto.
Defined.

Lemma handlePlanUpdate_effect_witness :
  AIPlanResponse.shoppingList planOne <> []
  /\ App.shoppingList (App.handlePlanUpdate planOne pricedState)
     = [ShoppingItem.mk (str "0") (str "milk") (str "1 l") [] None None]
  /\ App.status (App.handlePlanUpdate planOne pricedState) = IDLE
  /\ AIPlanResponse.shoppingList planNone = []
  /\ App.shoppingList (App.handlePlanUpdate planNone pricedState)
     = App.shoppingList pricedState
  /\ App.status (App.handlePlanUpdate planNone pricedState) = READY.
Proof.
  assert (H1 : AIPlanResponse.shoppingList planOne <> []) by discriminate.
  assert (H0 : AIPlanResponse.shoppingList planNone = []) by reflexivity.
  destruct (handlePlanUpdate_effect planOne pricedState) as (Hnew & _).
  destruct (handlePlanUpdate_effect planNone pricedState) as (_ & Hkeep & _).
  destruct (Hnew H1) as (Hl & _ & _ & _ & _ & Hst).
  destruct (Hkeep H0) as (Hl0 & Hst0).
  split; [exact H1|]. split; [rewrite Hl; reflexivity|]. split; [exact Hst|].
  split; [exact H0|]. split; [exact Hl0|]. rewrite Hst0. reflexivity.
Defined.


Lemma analytics_buckets_partition_witness :
  [milkItem] <> []
  /\ exactArith exact
  /\ Analytics exact (fun s => s) [milkItem]
     = Some [ Bucket.mk (str "Мясо/Рыба") 0;
              Bucket.mk (str "Овощи/Фрукты") 0;
              Bucket.mk (str "Молочка") 95;
              Bucket.mk (str "Бакалея") 0 ]
  /\ bucketsAddUp exact (fun s => s) [milkItem].
Proof.
  assert (Hne : [milkItem] <> []) by discriminate.
  destruct (analytics_buckets_partition Z exact (fun s => s) [milkItem] Hne)
    as (HA & _ & _ & _ & Hsum).
  split; [exact Hne|]. split; [exact exact_is_exact|].
  split; [rewrite HA; reflexivity|].
  exact (proj1 (Hsum exact_is_exact)).
Defined.

(** * Further properties of the code *)

(** ** Store totals in closed form *)

Lemma accumulate_closed (s : jsstring) (tc mi : Z) (item : ShoppingItem.t) :
  accumulate s (tc, mi) item
  = (tc + costAt s item, mi + if covered s item then 0 else 1).
Proof.
  unfold accumulate, accumulateWith, costAt, covered, cellQuote. simpl.
  destruct (find _ (ShoppingItem.prices item)) as [p|].
  - destruct (StorePrice.inStock p); f_equal; lia.
  - f_equal; lia.
Qed.

Lemma fold_accumulate_closed (s : jsstring) (items : list ShoppingItem.t) :
  forall tc mi,
    fold_left (accumulate s) items (tc, mi)
    = (tc + Zsum (map (costAt s) items),
       mi + Z.of_nat (length (filter (fun item => negb (covered s item)) items))).
Proof.
  induction items as [|item items IH]; intros tc mi.
  - simpl. f_equal; lia.
  - cbn [fold_left map filter Zsum fold_right].
    rewrite accumulate_closed, IH.
    destruct (covered s item); cbn [negb length]; f_equal;
      unfold Zsum; lia.
Qed.

Lemma storeTotal_closed (items : list ShoppingItem.t) (s : jsstring) :
  storeTotal items s
  = StoreTotal.mk s (Zsum (map (costAt s) items))
      (Z.of_nat (length (filter (fun item => negb (covered s item)) items))).
Proof.
  unfold storeTotal, storeTotalWith.
  change (accumulateWith exact s) with (accumulate s).
  change (Arith.zero exact) with 0.
  rewrite fold_accumulate_closed. reflexivity.
Qed.

Lemma filter_length_le {A : Type} (f : A -> bool) (l : list A) :
  (length (filter f l) <= length l)%nat.
Proof.
  induction l as [|x l IH]; simpl; [lia|]. destruct (f x); simpl; lia.
Qed.

Lemma filter_length_split {A : Type} (f : A -> bool) (l : list A) :
  (length (filter f l) + length (filter (fun x => negb (f x)) l) = length l)%nat.
Proof.
  induction l as [|x l IH]; simpl; [lia|]. destruct (f x); simpl; lia.
Qed.

Lemma filter_all {A : Type} (f : A -> bool) (l : list A) :
  length (filter f l) = length l -> forall x, In x l -> f x = true.
Proof.
  induction l as [|a l IH]; simpl; [intros _ x []|].
  pose proof (filter_length_le f l) as Hle.
  destruct (f a) eqn:E; simpl; intros H x [<-|Hx]; try lia; auto.
Qed.

Lemma costAt_nonneg (s : jsstring) (item : ShoppingItem.t) :
  (forall q, In q (ShoppingItem.prices item) -> 0 <= StorePrice.price q) ->
  0 <= costAt s item.
Proof.
  intros H. unfold costAt, cellQuote.
  destruct (find _ (ShoppingItem.prices item)) as [p|] eqn:E; [|lia].
  apply find_some in E as [Hp _]. destruct (StorePrice.inStock p); [auto | lia].
Qed.

Lemma costAt_uncovered (s : jsstring) (item : ShoppingItem.t) :
  covered s item = false -> costAt s item = 0.
Proof.
  unfold covered, costAt. destruct (cellQuote item s) as [p|]; [|reflexivity].
  intros ->. reflexivity.
Qed.

Lemma Zsum_zero (l : list Z) : (forall x, In x l -> x = 0) -> Zsum l = 0.
Proof.
  induction l as [|a l IH]; intros H; simpl; [reflexivity|].
  rewrite (H a (or_introl eq_refl)), IH; [reflexivity|].
  intros x Hx. apply H. right; exact Hx.
Qed.

Lemma Zsum_nonneg (l : list Z) : (forall x, In x l -> 0 <= x) -> 0 <= Zsum l.
Proof.
  induction l as [|a l IH]; intros H; simpl; [lia|].
  pose proof (H a (or_introl eq_refl)).
  assert (0 <= Zsum l) by (apply IH; intros x Hx; apply H; right; exact Hx).
  lia.
Qed.

(** A store that misses every item has total cost 0. *)
Lemma all_missing_costs_nothing (items : list ShoppingItem.t) (s : jsstring) :
  StoreTotal.missingItems (storeTotal items s) = Z.of_nat (length items) ->
  StoreTotal.totalCost (storeTotal items s) = 0.
Proof.
  rewrite storeTotal_closed. simpl. intros H. apply Nat2Z.inj in H.
  apply Zsum_zero. intros x Hx. apply in_map_iff in Hx as (item & <- & Hi).
  apply costAt_uncovered.
  pose proof (filter_all _ items H item Hi) as Hc. simpl in Hc.
  destruct (covered s item); [discriminate | reflexivity].
Qed.

Lemma missingItems_le (items : list ShoppingItem.t) (s : jsstring) :
  StoreTotal.missingItems (storeTotal items s) <= Z.of_nat (length items).
Proof.
  rewrite storeTotal_closed. simpl.
  pose proof (filter_length_split (covered s) items). lia.
Qed.

(** X1. For every store the number of missing items lies between 0 and the
    number of items and is the number of items minus those whose first quote
    of the store is in stock; when no price is negative no total cost is
    negative. *)
Theorem storeTotal_bounds (items : list ShoppingItem.t) (s : jsstring) :
  0 <= StoreTotal.missingItems (storeTotal items s) <= Z.of_nat (length items)
  /\ StoreTotal.missingItems (storeTotal items s)
     = Z.of_nat (length items) - Z.of_nat (length (filter (covered s) items))
  /\ ((forall item q, In item items -> In q (ShoppingItem.prices item) ->
                      0 <= StorePrice.price q) ->
      0 <= StoreTotal.totalCost (storeTotal items s)).
Proof.
  rewrite storeTotal_closed. simpl.
  pose proof (filter_length_split (covered s) items) as Hs.
  split; [lia|]. split; [lia|].
  intros Hp. apply Zsum_nonneg. intros x Hx.
  apply in_map_iff in Hx as (item & <- & Hi).
  apply costAt_nonneg. intros q Hq. apply (Hp item q Hi Hq).
Qed.

(** X2. A store none of whose quotes is in stock gets total cost 0 and
    misses every item; the comparator puts every store of the list before or
    level with it, strictly before when that store misses fewer items, and
    level with it only when that store too misses every item at cost 0. *)
Theorem store_without_stock_ranks_last
    (items : list ShoppingItem.t) (s : jsstring) :
  (forall item q,
      In item items -> In q (ShoppingItem.prices item) ->
      StorePrice.storeName q = s -> StorePrice.inStock q = false) ->
  storeTotal items s = StoreTotal.mk s 0 (Z.of_nat (length items))
  /\ forall t,
      In t (storeTotals items) ->
      compareStores t (storeTotal items s) <= 0
      /\ (StoreTotal.missingItems t < Z.of_nat (length items) ->
          compareStores t (storeTotal items s) < 0)
      /\ (compareStores (storeTotal items s) t <= 0 ->
          StoreTotal.missingItems t = Z.of_nat (length items)
          /\ StoreTotal.totalCost t = 0).
Proof.
  intros Hout.
  assert (Hunc : forall item, In item items -> covered s item = false).
  { intros item Hi. unfold covered, cellQuote.
    destruct (find _ (ShoppingItem.prices item)) as [p|] eqn:E; [|reflexivity].
    apply find_some in E as [Hp Hn]. apply JsString_eqb_eq in Hn.
    apply (Hout item p Hi Hp Hn). }
  assert (Hs : storeTotal items s = StoreTotal.mk s 0 (Z.of_nat (length items))).
  { rewrite storeTotal_closed. f_equal.
    - apply Zsum_zero. intros x Hx. apply in_map_iff in Hx as (item & <- & Hi).
      apply costAt_uncovered, Hunc, Hi.
    - f_equal. pose proof (filter_length_split (covered s) items) as Hsp.
      assert (Hz : filter (covered s) items = []).
      { apply filter_nil_none. exact Hunc. }
      rewrite Hz in Hsp. simpl in Hsp. lia. }
  split; [exact Hs|].
  intros t Ht. unfold storeTotals, storeTotalsWith in Ht.
  apply in_map_iff in Ht as (s' & <- & _).
  change (storeTotalWith exact items s') with (storeTotal items s').
  pose proof (missingItems_le items s') as Hle.
  pose proof (all_missing_costs_nothing items s') as Hzero.
  rewrite Hs. split; [|split].
  - apply compareStores_le. unfold rankLe. simpl.
    destruct (Z.eq_dec (StoreTotal.missingItems (storeTotal items s'))
                (Z.of_nat (length items))) as [E|E]; [|lia].
    right. split; [exact E|]. rewrite (Hzero E). lia.
  - intros Hlt. apply compareStores_lt. exact Hlt.
  - intros Hc. apply compareStores_le in Hc. unfold rankLe in Hc. simpl in Hc.
    assert (E : StoreTotal.missingItems (storeTotal items s')
                = Z.of_nat (length items)) by lia.
    split; [exact E | apply Hzero, E].
Qed.

(** ** The retailer universe and the order of the items *)

Lemma filter_perm {A : Type} (f : A -> bool) (l l' : list A) :
  Permutation l l' -> Permutation (filter f l) (filter f l').
Proof.
  induction 1 as [|x l l' _ IH|x y l|l l' l'' _ IH1 _ IH2]; simpl.
  - constructor.
  - destruct (f x); [constructor|]; exact IH.
  - destruct (f x), (f y); try reflexivity. apply perm_swap.
  - etransitivity; eassumption.
Qed.

Lemma missingItems_perm (items items' : list ShoppingItem.t) (s : jsstring) :
  Permutation items items' ->
  StoreTotal.missingItems (storeTotal items s)
  = StoreTotal.missingItems (storeTotal items' s).
Proof.
  intros H. rewrite !storeTotal_closed. cbn [StoreTotal.missingItems].
  f_equal. apply Permutation_length, filter_perm, H.
Qed.

(** Two strictly ascending arrays with the same members are equal. *)
Lemma strictly_sorted_unique (l1 : list jsstring) :
  forall l2,
    StronglySorted JsString.lt l1 -> StronglySorted JsString.lt l2 ->
    (forall x, In x l1 <-> In x l2) -> l1 = l2.
Proof.
  induction l1 as [|a l1 IH]; intros l2 H1 H2 Hm.
  - destruct l2 as [|b l2]; [reflexivity|].
    exfalso. apply (proj2 (Hm b)). left; reflexivity.
  - destruct l2 as [|b l2].
    + exfalso. apply (proj1 (Hm a)). left; reflexivity.
    + inversion H1 as [|? ? H1' Ha]; subst. inversion H2 as [|? ? H2' Hb]; subst.
      rewrite Forall_forall in Ha, Hb.
      assert (Eab : a = b).
      { destruct (proj1 (Hm a) (or_introl eq_refl)) as [E|Hin]; [auto|].
        destruct (proj2 (Hm b) (or_introl eq_refl)) as [E|Hin']; [auto|].
        exfalso. apply (JsString_lt_irrefl a).
        eapply JsString_lt_trans; [apply Ha, Hin' | apply Hb, Hin]. }
      subst b. f_equal. apply IH; [assumption | assumption|].
      intros x. split; intros Hx.
      * destruct (proj1 (Hm x) (or_intror Hx)) as [E|Hin]; [|exact Hin].
        subst x. exfalso. apply (JsString_lt_irrefl a), Ha, Hx.
      * destruct (proj2 (Hm x) (or_intror Hx)) as [E|Hin]; [|exact Hin].
        subst x. exfalso. apply (JsString_lt_irrefl a), Hb, Hx.
Qed.

Lemma allStoreNames_perm (items items' : list ShoppingItem.t) :
  Permutation items items' -> allStoreNames items = allStoreNames items'.
Proof.
  intros H. apply strictly_sorted_unique; try apply allStoreNames_sorted.
  intros x. rewrite !allStoreNames_In.
  split; intros (item & q & Hi & Hq); exists item, q; split; try tauto.
  - eapply Permutation_in; [exact H | tauto].
  - eapply Permutation_in; [symmetry; exact H | tauto].
Qed.

(** X3. Reordering the items of the shopping list changes neither the
    retailer universe, nor the order of the store rows built from it,
    nor the number of items a store is missing. The total cost is added up
    in the order of the items, and in doubles it can change with that order:
    0.1, 0.2, 0.3 add up to 0.6000000000000001 and 0.3, 0.2, 0.1 to 0.6. *)
Theorem universe_ignores_item_order (items items' : list ShoppingItem.t) :
  Permutation items items' ->
  allStoreNames items = allStoreNames items'
  /\ map StoreTotal.storeName (storeTotals items)
     = map StoreTotal.storeName (storeTotals items')
  /\ (forall s,
        StoreTotal.missingItems (storeTotal items s)
        = StoreTotal.missingItems (storeTotal items' s))
  /\ StoreTotal.totalCost (storeTotalWith double driftList (str "A"))
     <> StoreTotal.totalCost (storeTotalWith double (rev driftList) (str "A")).
Proof.
  intros H.
  assert (Hn : allStoreNames items = allStoreNames items')
    by (apply allStoreNames_perm, H).
  split; [exact Hn|]. split; [|split]; cycle 2.
  - intros Hd.
    apply (f_equal
             (fun x => PrimFloat.eqb x
                         (StoreTotal.totalCost
                            (storeTotalWith double (rev driftList) (str "A")))))
      in Hd.
    vm_compute in Hd. discriminate.
  - unfold storeTotals, storeTotalsWith.
    change (allStoreNamesOf items) with (allStoreNames items).
    change (allStoreNamesOf items') with (allStoreNames items').
    rewrite !map_map, Hn. apply map_ext. intros s.
    change (storeTotalWith exact items s) with (storeTotal items s).
    change (storeTotalWith exact items' s) with (storeTotal items' s).
    rewrite !storeTotal_name. reflexivity.
  - intros s. apply missingItems_perm, H.
Qed.

(** ** The winner *)

Lemma sorted_head_least {A : Type} (R : A -> A -> Prop) (x : A) (l : list A) :
  StronglySorted R (x :: l) -> forall y, In y l -> R x y.
Proof.
  intros H y Hy. inversion H as [|? ? _ Hx]; subst.
  rewrite Forall_forall in Hx. apply Hx, Hy.
Qed.

Lemma rankLe_refl (t : StoreTotal.t) : rankLe t t.
Proof. unfold rankLe. lia. Qed.

Lemma winner_least (items : list ShoppingItem.t) (w t : StoreTotal.t) :
  winner items = Some w -> In t (storeTotals items) -> rankLe w t.
Proof.
  unfold winner, winnerOf, sortedStores. intros Hw Ht.
  pose proof (sortStores_sorted (storeTotals items)) as Hs.
  assert (Hin : In t (sortStores (storeTotals items))) by (apply sort_In, Ht).
  destruct (sortStores (storeTotals items)) as [|x l]; [discriminate|].
  simpl in Hw. injection Hw as ->.
  destruct Hin as [<-|Hin]; [apply rankLe_refl|].
  eapply sorted_head_least; eassumption.
Qed.

Lemma winner_member (items : list ShoppingItem.t) (w : StoreTotal.t) :
  winner items = Some w -> In w (storeTotals items).
Proof.
  unfold winner, winnerOf, sortedStores, sortStores. intros Hw.
  apply (sort_In compareStores).
  destruct (sort compareStores (storeTotals items)) as [|x l];
    [discriminate|].
  simpl in Hw. injection Hw as ->. left; reflexivity.
Qed.

Lemma winner_none (items : list ShoppingItem.t) :
  winner items = None <->
  forall item, In item items -> ShoppingItem.prices item = [].
Proof.
  rewrite <- sortedStores_nil. unfold winner, winnerOf.
  destruct (sortedStores items); simpl; split; congruence.
Qed.

(** X4. There is a winner exactly when some item carries a quote; the
    winner is the total of a store of the universe, no store misses fewer
    items, and among the stores that miss as few none is cheaper. *)
Theorem winner_is_optimal (items : list ShoppingItem.t) :
  (winner items = None <->
   forall item, In item items -> ShoppingItem.prices item = [])
  /\ forall w,
      winner items = Some w ->
      In (StoreTotal.storeName w) (allStoreNames items)
      /\ w = storeTotal items (StoreTotal.storeName w)
      /\ forall s,
          In s (allStoreNames items) ->
          StoreTotal.missingItems w <= StoreTotal.missingItems (storeTotal items s)
          /\ (StoreTotal.missingItems w = StoreTotal.missingItems (storeTotal items s) ->
              StoreTotal.totalCost w <= StoreTotal.totalCost (storeTotal items s)).
Proof.
  split; [apply winner_none|].
  intros w Hw.
  pose proof (winner_member items w Hw) as Hin.
  unfold storeTotals, storeTotalsWith in Hin. apply in_map_iff in Hin as (s0 & E & Hs0).
  split; [|split].
  - rewrite <- E, storeTotal_name. exact Hs0.
  - rewrite <- E at 1. rewrite <- E, storeTotal_name. reflexivity.
  - intros s Hs.
    assert (Hr : rankLe w (storeTotal items s)).
    { apply (winner_least items); [exact Hw|]. apply in_map, Hs. }
    unfold rankLe in Hr. lia.
Qed.

(** ** The comparison view *)

Lemma PriceParser_view (status : AppStatus) (items : list ShoppingItem.t)
    (banner : Banner.t) (cards : list Card.t) (header : list jsstring)
    (rows : list Row.t) :
  PriceParser status items = Ok (ComparisonView banner cards header rows) ->
  exists w,
    winner items = Some w
    /\ banner = Banner.mk (StoreTotal.storeName w)
                  (if StoreTotal.missingItems w >? 0
                   then Some (StoreTotal.missingItems w) else None)
                  (StoreTotal.totalCost w)
    /\ cards = map (fun t => Card.mk t (JsString.eqb (StoreTotal.storeName t)
                                          (StoreTotal.storeName w)))
                 (sortedStores items)
    /\ header = allStoreNames items
    /\ rows = map (tableRow (allStoreNames items)) items.
Proof.
  unfold PriceParser, winner.
  destruct (AppStatus_eqb status READY && (0 <? length items)%nat).
  - destruct (winnerOf (sortedStores items)) as [w|]; [|discriminate].
    intros H. injection H as <- <- <- <-. exists w. auto.
  - destruct (AppStatus_eqb status PARSING); discriminate.
Qed.

Lemma sortedStores_names (items : list ShoppingItem.t) :
  Permutation (map StoreTotal.storeName (sortedStores items))
    (allStoreNames items).
Proof.
  unfold sortedStores, sortStores.
  rewrite (Permutation_map StoreTotal.storeName (sort_perm compareStores _)).
  unfold storeTotals, storeTotalsWith. rewrite map_map.
  rewrite (map_ext _ (fun s => s) (storeTotal_name items)), map_id.
  reflexivity.
Qed.

(** X5. When the comparison view is shown its cards are the ranking in
    order, every store of the table header has exactly one card, the first
    card is the recommended store and it is the only highlighted one; the
    table has one row per item, in order, and one cell per header store in
    every row. *)
Theorem comparison_view_cards (status : AppStatus) (items : list ShoppingItem.t)
    (banner : Banner.t) (cards : list Card.t) (header : list jsstring)
    (rows : list Row.t) :
  PriceParser status items = Ok (ComparisonView banner cards header rows) ->
  map Card.total cards = sortedStores items
  /\ Permutation (map (fun c => StoreTotal.storeName (Card.total c)) cards) header
  /\ NoDup (map (fun c => StoreTotal.storeName (Card.total c)) cards)
  /\ (exists c rest,
        cards = c :: rest
        /\ StoreTotal.storeName (Card.total c) = Banner.recommended banner
        /\ Card.highlighted c = true
        /\ forall c', In c' rest -> Card.highlighted c' = false)
  /\ map Row.item rows = items
  /\ forall row, In row rows -> map Cell.store (Row.cells row) = header.
Proof.
  intros H. apply PriceParser_view in H as (w & Hw & -> & -> & -> & ->).
  assert (Hnames : map (fun c => StoreTotal.storeName (Card.total c))
                     (map (fun t => Card.mk t
                                      (JsString.eqb (StoreTotal.storeName t)
                                         (StoreTotal.storeName w)))
                        (sortedStores items))
                   = map StoreTotal.storeName (sortedStores items)).
  { rewrite map_map. reflexivity. }
  assert (Hnd : NoDup (map StoreTotal.storeName (sortedStores items))).
  { eapply Permutation_NoDup; [symmetry; apply sortedStores_names|].
    apply allStoreNames_NoDup. }
  split; [|split; [|split; [|split; [|split]]]].
  - rewrite map_map. simpl. apply map_id.
  - rewrite Hnames. apply sortedStores_names.
  - rewrite Hnames. exact Hnd.
  - unfold winner, winnerOf in Hw.
    destruct (sortedStores items) as [|x l]; [discriminate|].
    simpl in Hw. injection Hw as ->. simpl.
    eexists _, _. split; [reflexivity|]. simpl.
    split; [reflexivity|]. split; [apply JsString_eqb_refl|].
    intros c' Hc'. apply in_map_iff in Hc' as (t & <- & Ht). simpl.
    apply JsString_eqb_neq. intros E. simpl in Hnd.
    inversion Hnd as [|? ? Hnot _]; subst. apply Hnot. rewrite <- E.
    apply in_map, Ht.
  - rewrite map_map. simpl. apply map_id.
  - intros row Hrow. apply in_map_iff in Hrow as (item & <- & _).
    unfold tableRow. simpl. rewrite map_map. simpl. apply map_id.
Qed.

(** X6. The banner of the comparison view names the winner with its total
    cost; it reports "everything in stock" exactly when, in every item, the
    first quote of the recommended store is in stock, and otherwise reports
    the positive number of items for which it is not. *)
Theorem banner_reports_winner (status : AppStatus) (items : list ShoppingItem.t)
    (banner : Banner.t) (cards : list Card.t) (header : list jsstring)
    (rows : list Row.t) :
  PriceParser status items = Ok (ComparisonView banner cards header rows) ->
  winner items
  = Some (StoreTotal.mk (Banner.recommended banner) (Banner.basketCost banner)
            (Z.of_nat (length (filter (fun item =>
                                         negb (covered (Banner.recommended banner) item))
                                 items))))
  /\ (Banner.notFound banner = None <->
      forall item, In item items -> covered (Banner.recommended banner) item = true)
  /\ forall n, Banner.notFound banner = Some n ->
               0 < n
               /\ n = Z.of_nat (length (filter (fun item =>
                                                  negb (covered (Banner.recommended banner) item))
                                          items)).
Proof.
  intros H. apply PriceParser_view in H as (w & Hw & -> & _ & _ & _).
  pose proof (winner_member items w Hw) as Hin.
  unfold storeTotals, storeTotalsWith in Hin. apply in_map_iff in Hin as (s & E & _).
  rewrite storeTotal_closed in E. subst w. simpl.
  set (n := length (filter (fun item => negb (covered s item)) items)).
  split; [exact Hw|].
  assert (Hzero : n = 0%nat <-> forall item, In item items -> covered s item = true).
  { unfold n. rewrite length_zero_iff_nil, filter_nil_none. split.
    - intros Hc item Hi. specialize (Hc item Hi).
      destruct (covered s item); [reflexivity | discriminate].
    - intros Hc item Hi. rewrite (Hc item Hi). reflexivity. }
  destruct (Z.of_nat n >? 0) eqn:Hpos.
  - apply Z.gtb_lt in Hpos. split.
    + split; [discriminate|]. intros Hc. apply Hzero in Hc. lia.
    + intros m Hm. injection Hm as <-. split; [exact Hpos | reflexivity].
  - assert (Hn : n = 0%nat).
    { destruct (Z.gtb_spec (Z.of_nat n) 0); [discriminate | lia]. }
    split.
    + split; [intros _; apply Hzero, Hn | reflexivity].
    + intros m Hm. discriminate.
Qed.

(** ** When the prices tab raises *)

Lemma endParsing_cases (response : result (option (list ParsedItem.t)))
    (s : App.state) :
  (exists e, response = Throw e
             /\ App.status (App.endParsing response s) = ERROR
             /\ App.shoppingList (App.endParsing response s) = App.shoppingList s)
  \/ (response = Ok None
      /\ App.status (App.endParsing response s) = READY
      /\ App.shoppingList (App.endParsing response s) = [])
  \/ (exists data, response = Ok (Some data)
                   /\ App.status (App.endParsing response s) = READY
                   /\ App.shoppingList (App.endParsing response s)
                      = map postProcess data).
Proof.
  destruct response as [[data|]|e]; simpl.
  - right; right. exists data. auto.
  - right; left. auto.
  - left. exists e. auto.
Qed.

Lemma postProcess_prices (p : ParsedItem.t) :
  ShoppingItem.prices (postProcess p) = ParsedItem.prices p.
Proof.
  unfold postProcess.
  destruct (filter StorePrice.inStock (ParsedItem.prices p)); reflexivity.
Qed.

(** X7. After a price estimation ends the prices tab raises exactly when the
    response is a non-empty array none of whose items carries a quote; a
    failed request and an empty response text never make it raise, and a
    plan update never makes a tab raise that did not raise before. *)
Theorem prices_tab_raises_iff
    (response : result (option (list ParsedItem.t)))
    (newPlan : AIPlanResponse.t) (s : App.state) :
  ((exists e, App.pricesTab (App.endParsing response s) = Throw e) <->
   exists data,
     response = Ok (Some data) /\ data <> []
     /\ forall p, In p data -> ParsedItem.prices p = [])
  /\ App.handleStartParsing response s
     = App.endParsing response (App.beginParsing s)
  /\ ((exists e, App.pricesTab (App.handlePlanUpdate newPlan s) = Throw e) ->
      exists e, App.pricesTab s = Throw e).
Proof.
  split; [|split].
  - unfold App.pricesTab. rewrite PriceParser_throws_iff.
    destruct (endParsing_cases response s)
      as [(e & -> & Hst & Hl)|[(-> & Hst & Hl)|(data & -> & Hst & Hl)]];
      rewrite Hst, Hl.
    + split; [intros (H & _); discriminate | intros (d & H & _); discriminate].
    + split; [intros (_ & H & _); contradiction
             | intros (d & H & _); discriminate].
    + split.
      * intros (_ & Hne & Hp). exists data. split; [reflexivity|]. split.
        -- intros ->. apply Hne. reflexivity.
        -- intros p Hin. rewrite <- postProcess_prices.
           apply Hp, in_map, Hin.
      * intros (d & E & Hne & Hp). injection E as <-.
        split; [reflexivity|]. split.
        -- destruct data; [contradiction | discriminate].
        -- intros item Hi. apply in_map_iff in Hi as (p & <- & Hin).
           rewrite postProcess_prices. apply Hp, Hin.
  - reflexivity.
  - unfold App.pricesTab, App.handlePlanUpdate.
    destruct (0 <? length (AIPlanResponse.shoppingList newPlan))%nat; simpl.
    + intros [e H]. discriminate.
    + auto.
Qed.

(** ** Stored best prices *)

Lemma price_cheaper (a b : StorePrice.t) :
  StorePrice.price (cheaper a b) = Z.min (StorePrice.price a) (StorePrice.price b).
Proof.
  unfold cheaper. destruct (StorePrice.price a <? StorePrice.price b) eqn:E.
  - apply Z.ltb_lt in E. lia.
  - apply Z.ltb_ge in E. lia.
Qed.

Lemma price_fold_cheaper (rest : list StorePrice.t) :
  forall first,
    StorePrice.price (fold_left cheaper rest first)
    = Math_min (StorePrice.price first) (map StorePrice.price rest).
Proof.
  unfold Math_min. induction rest as [|a rest IH]; intros first; simpl;
    [reflexivity|].
  rewrite IH, price_cheaper. reflexivity.
Qed.

Lemma fold_cheaper_In (rest : list StorePrice.t) :
  forall first, In (fold_left cheaper rest first) (first :: rest).
Proof.
  induction rest as [|a rest IH]; intros first; simpl; [auto|].
  destruct (IH (cheaper first a)) as [E|H]; [|auto].
  rewrite <- E. unfold cheaper.
  destruct (StorePrice.price first <? StorePrice.price a); auto.
Qed.

Lemma followsSchema_spec (p : ParsedItem.t) :
  followsSchema p = true ->
  ShoppingItem.bestStore p = None /\ ShoppingItem.bestPrice p = None.
Proof.
  unfold followsSchema.
  destruct (ShoppingItem.bestStore p), (ShoppingItem.bestPrice p);
    intros H; try discriminate; auto.
Qed.

Lemma postProcess_fresh (p : ParsedItem.t) :
  followsSchema p = true -> bestFresh (postProcess p).
Proof.
  intros Hp. apply followsSchema_spec in Hp as [Hs Hb].
  unfold bestFresh, liveBest, minPrice. rewrite postProcess_prices.
  rewrite existsb_filter. unfold postProcess.
  destruct (filter StorePrice.inStock (ParsedItem.prices p)) as [|first rest];
    simpl.
  - rewrite Hs, Hb. split; [reflexivity | tauto].
  - rewrite price_fold_cheaper. split; [reflexivity|].
    split; discriminate.
Qed.

Lemma skeleton_fresh (item : PlanItem.t) (idx : nat) :
  bestFresh (App.skeleton item idx).
Proof. split; [reflexivity | simpl; tauto]. Qed.

(** ** Reachable session states *)

Lemma step_inv (s : App.state) (e : App.event) :
  schemaEvent e = true -> sessionInv s -> sessionInv (App.step s e).
Proof.
  intros He (Hf & Hp & Hr). destruct e as [newPlan|tab| |response]; simpl.
  - unfold App.handlePlanUpdate.
    destruct (0 <? length (AIPlanResponse.shoppingList newPlan))%nat; simpl.
    + split; [|split; [discriminate|discriminate]].
      intros item Hi. apply mapi_from_In in Hi as (x & i & _ & ->).
      apply skeleton_fresh.
    + split; [exact Hf|]. split; [exact Hp | exact Hr].
  - split; [exact Hf|]. split; [exact Hp | exact Hr].
  - split; [exact Hf|]. split; discriminate.
  - destruct (endParsing_cases response s)
      as [(e & -> & Hst & Hl)|[(-> & Hst & Hl)|(data & -> & Hst & Hl)]];
      unfold sessionInv; rewrite Hst, Hl.
    + split; [exact Hf|]. split; discriminate.
    + split; [intros item []|]. split; [discriminate|].
      intros _. exists []. reflexivity.
    + split.
      * intros item Hi. apply in_map_iff in Hi as (p & <- & Hin).
        apply postProcess_fresh.
        simpl in He. rewrite forallb_forall in He. apply He, Hin.
      * split; [discriminate|]. intros _. exists data. reflexivity.
Qed.

Lemma run_inv (events : list App.event) :
  forallb schemaEvent events = true ->
  forall s, sessionInv s -> sessionInv (App.run events s).
Proof.
  unfold App.run. induction events as [|e events IH]; intros He s Hs; simpl;
    [exact Hs|].
  simpl in He. apply andb_prop in He as [He Hes].
  apply IH; [exact Hes|]. apply step_inv; [exact He | exact Hs].
Qed.

(** X9. When every response of a price estimation follows the response
    schema (its items carry neither [bestStore] nor [bestPrice]), then in
    every state the session reaches from its initial state by plan updates,
    tab changes and price estimations (begun and ended in any interleaving),
    the stored best price of every item is the minimum in-stock price of its
    quotes, absent exactly when no quote is in stock and together with the
    best store; the status is never [PLANNING]; and a ready shopping list is
    always a post-processed response. *)
Theorem session_keeps_best_prices_fresh (events : list App.event) :
  forallb schemaEvent events = true ->
  (forall item,
      In item (App.shoppingList (App.run events App.init)) ->
      ShoppingItem.bestPrice item = liveBest item
      /\ (ShoppingItem.bestStore item = None <-> ShoppingItem.bestPrice item = None)
      /\ (forall m, ShoppingItem.bestPrice item = Some m ->
                    minInStock (ShoppingItem.prices item) m))
  /\ App.status (App.run events App.init) <> PLANNING
  /\ (App.status (App.run events App.init) = READY ->
      exists data, App.shoppingList (App.run events App.init) = map postProcess data).
Proof.
  intros Hev.
  assert (Hinit : sessionInv App.init).
  { split; [intros item []|]. split; discriminate. }
  destruct (run_inv events Hev App.init Hinit) as (Hf & Hp & Hr).
  split; [|split; [exact Hp | exact Hr]].
  intros item Hi. destruct (Hf item Hi) as [Hb Hs].
  split; [exact Hb|]. split; [exact Hs|].
  intros m Hm. rewrite Hb in Hm. unfold liveBest in Hm.
  destruct (existsb StorePrice.inStock (ShoppingItem.prices item)) eqn:E;
    [|discriminate].
  injection Hm as <-. apply minPrice_spec.
  apply existsb_exists in E as (q & Hq & Hs'). exists q. auto.
Qed.

(** ** Highlighted cells *)

Lemma rowHighlighted_iff (stores : list jsstring) (item : ShoppingItem.t) :
  rowHighlighted stores item = true <->
  exists s, In s stores /\ isBest item s = true.
Proof.
  unfold rowHighlighted, tableRow. simpl. rewrite existsb_exists. split.
  - intros (c & Hc & Hb). apply in_map_iff in Hc as (s & <- & Hs).
    exists s. auto.
  - intros (s & Hs & Hb). eexists. split; [apply in_map, Hs | exact Hb].
Qed.

(** X10. A row of the table has a highlighted cell only if the item has a
    quote in stock; when the item has at most one quote per store the row
    has a highlighted cell exactly when a quote is in stock. *)
Theorem row_highlighted_iff_in_stock
    (items : list ShoppingItem.t) (item : ShoppingItem.t) :
  In item items ->
  (rowHighlighted (allStoreNames items) item = true ->
   existsb StorePrice.inStock (ShoppingItem.prices item) = true)
  /\ (uniqueStores item ->
      (rowHighlighted (allStoreNames items) item = true <->
       existsb StorePrice.inStock (ShoppingItem.prices item) = true)).
Proof.
  intros Hi.
  assert (Honly : rowHighlighted (allStoreNames items) item = true ->
                  existsb StorePrice.inStock (ShoppingItem.prices item) = true).
  { intros H. apply rowHighlighted_iff in H as (s & _ & Hb).
    unfold isBest in Hb. destruct (cellQuote item s) as [p|] eqn:E;
      [|discriminate].
    apply andb_true_iff in Hb as [Hs _].
    unfold cellQuote in E. apply find_some in E as [Hp _].
    apply existsb_exists. exists p. auto. }
  split; [exact Honly|]. intros Hu. split; [exact Honly|].
  intros Hex.
  assert (Hm : minInStock (ShoppingItem.prices item) (minPrice item)).
  { apply minPrice_spec. apply existsb_exists in Hex as (q & Hq & Hs).
    exists q. auto. }
  destruct Hm as [(q & Hq & Hs & Hpm) _].
  apply rowHighlighted_iff. exists (StorePrice.storeName q). split.
  - apply allStoreNames_In. exists item, q. auto.
  - unfold isBest. rewrite (cellQuote_unique item q Hu Hq), Hs. simpl.
    apply Z.eqb_eq, Hpm.
Qed.

(** X11. For a priced item with at most one quote per store and at least
    one quote in stock, the stored best store is the store of a quote of the
    item, and its cell in the comparison table is highlighted. *)
Theorem stored_best_store_is_highlighted
    (p : ParsedItem.t) (items : list ShoppingItem.t) (s : jsstring) :
  NoDup (map StorePrice.storeName (ParsedItem.prices p)) ->
  existsb StorePrice.inStock (ParsedItem.prices p) = true ->
  In (postProcess p) items ->
  ShoppingItem.bestStore (postProcess p) = Some s ->
  In s (allStoreNames items)
  /\ isBest (postProcess p) s = true
  /\ In (Cell.mk s (cellQuote (postProcess p) s) true)
       (Row.cells (tableRow (allStoreNames items) (postProcess p))).
Proof.
  intros Hu Hex Hi Hs.
  assert (Hu' : uniqueStores (postProcess p)).
  { unfold uniqueStores. rewrite postProcess_prices. exact Hu. }
  assert (Hbest : exists best,
             In best (ShoppingItem.prices (postProcess p))
             /\ StorePrice.inStock best = true
             /\ StorePrice.storeName best = s
             /\ StorePrice.price best = minPrice (postProcess p)).
  { unfold minPrice. rewrite postProcess_prices.
    unfold postProcess in Hs.
    pose proof (fun q => filter_In StorePrice.inStock q (ParsedItem.prices p))
      as Hf.
    rewrite existsb_filter in Hex.
    destruct (filter StorePrice.inStock (ParsedItem.prices p))
      as [|first rest]; simpl in Hs; [discriminate Hex|].
    injection Hs as Hs. exists (fold_left cheaper rest first).
    pose proof (proj1 (Hf _) (fold_cheaper_In rest first)) as [H1 H2].
    simpl. rewrite price_fold_cheaper. auto. }
  destruct Hbest as (best & Hin & Hst & <- & Hpr).
  assert (Hb : isBest (postProcess p) (StorePrice.storeName best) = true).
  { unfold isBest. rewrite (cellQuote_unique _ best Hu' Hin), Hst. simpl.
    apply Z.eqb_eq, Hpr. }
  assert (Hn : In (StorePrice.storeName best) (allStoreNames items)).
  { apply allStoreNames_In. exists (postProcess p), best. auto. }
  split; [exact Hn|]. split; [exact Hb|].
  unfold tableRow. simpl. apply in_map_iff.
  exists (StorePrice.storeName best). rewrite Hb. auto.
Qed.

(** ** Identifiers of the skeleton items *)

Lemma digits_inj (d d' : Decimal.uint) :
  JsString.digits d = JsString.digits d' -> d = d'.
Proof.
  revert d'. induction d as [|d IH|d IH|d IH|d IH|d IH|d IH|d IH|d IH|d IH|d IH];
    intros [|d'|d'|d'|d'|d'|d'|d'|d'|d'|d']; simpl; intros H;
    try discriminate; try reflexivity;
    injection H as H; f_equal; apply IH, H.
Qed.

Lemma toString_inj (n n' : nat) :
  JsString.toString n = JsString.toString n' -> n = n'.
Proof.
  unfold JsString.toString. intros H.
  apply DecimalNat.Unsigned.to_uint_inj, digits_inj, H.
Qed.

Lemma skeleton_ids (l : list PlanItem.t) :
  forall k,
    map ShoppingItem.id (mapi_from k App.skeleton l)
    = map JsString.toString (seq k (length l)).
Proof.
  induction l as [|x l IH]; intros k; simpl; [reflexivity|].
  rewrite IH. reflexivity.
Qed.

(** X12. The items that a plan update puts on the shopping list carry
    pairwise distinct identifiers, the decimal numerals of their
    positions. *)
Theorem skeleton_ids_distinct (newPlan : AIPlanResponse.t) (s : App.state) :
  AIPlanResponse.shoppingList newPlan <> [] ->
  NoDup (map ShoppingItem.id (App.shoppingList (App.handlePlanUpdate newPlan s)))
  /\ map ShoppingItem.id (App.shoppingList (App.handlePlanUpdate newPlan s))
     = map JsString.toString
         (seq 0 (length (AIPlanResponse.shoppingList newPlan)))
  /\ forall i j a b,
      nth_error (App.shoppingList (App.handlePlanUpdate newPlan s)) i = Some a ->
      nth_error (App.shoppingList (App.handlePlanUpdate newPlan s)) j = Some b ->
      ShoppingItem.id a = ShoppingItem.id b -> i = j.
Proof.
  intros Hne. unfold App.handlePlanUpdate.
  destruct (AIPlanResponse.shoppingList newPlan) as [|x l] eqn:E;
    [contradiction|].
  assert (Hpos : (0 <? length (x :: l))%nat = true) by reflexivity.
  rewrite Hpos. cbn [App.shoppingList App.setStatus App.setShoppingList].
  unfold mapi. split; [|split].
  - rewrite skeleton_ids. apply Injective_map_NoDup; [|apply seq_NoDup].
    intros a b. apply toString_inj.
  - apply skeleton_ids.
  - intros i j a b Ha Hb Hid.
    rewrite mapi_from_nth in Ha, Hb.
    destruct (nth_error (x :: l) i) as [pa|]; [|discriminate].
    destruct (nth_error (x :: l) j) as [pb|]; [|discriminate].
    simpl in Ha, Hb. injection Ha as <-. injection Hb as <-.
    simpl in Hid. apply toString_inj, Hid.
Qed.

(** ** Validation as a round trip *)

(** X13. Validation leaves well-shaped arguments as they are: a well-shaped
    plan passed again as arguments is rebuilt unchanged, so validating twice
    gives what validating once gives. *)
Theorem validation_is_idempotent :
  (forall p, wellShaped p -> buildPlanData (argsOf p) = Ok p)
  /\ (forall args p, buildPlanData args = Ok p -> buildPlanData (argsOf p) = Ok p).
Proof.
  assert (H : forall p, wellShaped p -> buildPlanData (argsOf p) = Ok p).
  { intros [m l c] (Hm & Hl & Hc). simpl in Hm, Hl, Hc.
    unfold buildPlanData, argsOf, bind, getProp.
    change (lookup (str "meals") _) with m.
    change (lookup (str "shoppingList") _) with l.
    change (lookup (str "totalEstimatedCost") _) with c.
    rewrite Hm, Hl, Hc. reflexivity. }
  split; [exact H|].
  intros args p Hp. apply H. eapply buildPlanData_wellShaped, Hp.
Qed.

(** ** The loop over the tool calls *)

Section LoopFacts.

Variable onPlanUpdated : PlanData.t -> result unit.

Lemma handleCalls_app (calls1 calls2 : list FunctionCall.t) :
  forall plan,
    handleCalls onPlanUpdated (calls1 ++ calls2) plan
    = match handleCalls onPlanUpdated calls1 plan with
      | (plan', Ok _) => handleCalls onPlanUpdated calls2 plan'
      | (plan', Throw e) => (plan', Throw e)
      end.
Proof.
  induction calls1 as [|c calls1 IH]; intros plan; [reflexivity|].
  cbn [app handleCalls].
  destruct (handleCall onPlanUpdated c plan) as [plan' [u|e]];
    [apply IH | reflexivity].
Qed.

Lemma handleCalls_others (calls : list FunctionCall.t) :
  (forall c, In c calls -> isUpdate c = false) ->
  forall plan, handleCalls onPlanUpdated calls plan = (plan, Ok tt).
Proof.
  induction calls as [|c calls IH]; intros Hc plan; [reflexivity|].
  cbn [handleCalls]. unfold handleCall.
  pose proof (Hc c (or_introl eq_refl)) as Hn. unfold isUpdate in Hn.
  rewrite Hn. apply IH. intros c' Hc'. apply Hc. right; exact Hc'.
Qed.

End LoopFacts.

(** X14. In the loop over the tool calls of a response, calls of other
    tools leave the stored plan alone; when the loop completes, the stored
    plan is the validated plan of the last update call; and an update call
    whose arguments are null or undefined ends the loop with a [TypeError],
    without a change of the stored plan and without a look at the later
    calls. *)
Theorem tool_call_loop_last_update_wins
    (onPlanUpdated : PlanData.t -> result unit) :
  (forall calls plan,
      (forall c, In c calls -> isUpdate c = false) ->
      handleCalls onPlanUpdated calls plan = (plan, Ok tt))
  /\ (forall before c after plan stored u,
        isUpdate c = true ->
        (forall c', In c' after -> isUpdate c' = false) ->
        handleCalls onPlanUpdated (before ++ c :: after) plan = (stored, Ok u) ->
        exists p, buildPlanData (FunctionCall.args c) = Ok p /\ stored = Some p)
  /\ (forall before c after plan stored u,
        handleCalls onPlanUpdated before plan = (stored, Ok u) ->
        isUpdate c = true ->
        FunctionCall.args c = JNull \/ FunctionCall.args c = JUndefined ->
        handleCalls onPlanUpdated (before ++ c :: after) plan
        = (stored, Throw TypeError)).
Proof.
  split; [|split].
  - intros calls plan Hc. apply handleCalls_others, Hc.
  - intros before c after plan stored u Hup Hafter H.
    rewrite handleCalls_app in H.
    destruct (handleCalls onPlanUpdated before plan) as [plan1 [u1|e1]];
      [|discriminate].
    cbn [handleCalls] in H. unfold handleCall in H.
    unfold isUpdate in Hup. rewrite Hup in H.
    destruct (buildPlanData (FunctionCall.args c)) as [p|e]; [|discriminate].
    destruct (onPlanUpdated p) as [u2|e2]; [|discriminate].
    rewrite (handleCalls_others onPlanUpdated after Hafter) in H.
    injection H as <- _. exists p. auto.
  - intros before c after plan stored u Hb Hup Hargs.
    rewrite handleCalls_app, Hb. cbn [handleCalls]. unfold handleCall.
    unfold isUpdate in Hup. rewrite Hup.
    destruct Hargs as [-> | ->]; reflexivity.
Qed.

(** ** The API key *)

Lemma KeyModal_step_env (s : KeyModal.state) (e : KeyModal.event) :
  KeyModal.envKey (KeyModal.step s e) = KeyModal.envKey s.
Proof.
  unfold KeyModal.step, KeyModal.showKeyModal.
  destruct (negb (KeyModal.envSet s)); simpl; [|reflexivity].
  destruct (KeyModal.apiKey s) as [|c k] eqn:E; [|reflexivity].
  destruct e as [text|]; [reflexivity|].
  unfold KeyModal.onClick. rewrite E. reflexivity.
Qed.

(** X16. The key modal is shown exactly while no key is configured and the
    input is empty, so whenever its button can be clicked the click changes
    nothing: whatever is typed and clicked, the configured key stays as it
    was. Without a configured key every price estimation ends in the error
    status and keeps the shopping list. *)
Theorem key_modal_never_stores_key :
  (forall s,
      KeyModal.showKeyModal s = true <->
      KeyModal.envSet s = false /\ KeyModal.apiKey s = [])
  /\ (forall s, KeyModal.showKeyModal s = true -> KeyModal.onClick s = s)
  /\ (forall events s,
        KeyModal.envKey (KeyModal.run events s) = KeyModal.envKey s)
  /\ (forall events key response st,
        getAi key = Throw ApiError ->
        App.status
          (App.handleStartParsing
             (priceRequest
                (KeyModal.envKey (KeyModal.run events (KeyModal.mk key [])))
                response) st) = ERROR
        /\ App.shoppingList
             (App.handleStartParsing
                (priceRequest
                   (KeyModal.envKey (KeyModal.run events (KeyModal.mk key [])))
                   response) st) = App.shoppingList st).
Proof.
  assert (Hrun : forall events s,
             KeyModal.envKey (KeyModal.run events s) = KeyModal.envKey s).
  { unfold KeyModal.run. induction events as [|e events IH]; intros s;
      [reflexivity|].
    simpl. rewrite IH. apply KeyModal_step_env. }
  split; [|split; [|split; [exact Hrun|]]].
  - intros s. unfold KeyModal.showKeyModal.
    destruct (KeyModal.envSet s), (KeyModal.apiKey s); simpl;
      split; try tauto; try discriminate; intros [H1 H2]; discriminate.
  - intros s. unfold KeyModal.showKeyModal, KeyModal.onClick.
    destruct (KeyModal.apiKey s); [reflexivity|].
    rewrite andb_false_r. discriminate.
  - intros events key response st Hkey. rewrite Hrun. simpl.
    unfold priceRequest, bind. rewrite Hkey. simpl. auto.
Qed.

(** ** Substring search *)

Lemma startsWith_prefix (s p : jsstring) :
  JsString.startsWith s p = true <-> exists post, s = p ++ post.
Proof.
  revert s. induction p as [|c p IH]; intros s.
  - split; [intros _; exists s; reflexivity | destruct s; reflexivity].
  - destruct s as [|d s]; simpl.
    + split; [discriminate | intros [post H]; discriminate].
    + rewrite andb_true_iff, N.eqb_eq, IH. split.
      * intros [-> [post ->]]. exists post. reflexivity.
      * intros [post H]. injection H as -> ->. split; [reflexivity|].
        exists post. reflexivity.
Qed.

(** [includes] finds exactly the contiguous occurrences. *)
Lemma includes_substring (s sub : jsstring) :
  JsString.includes s sub = true <-> exists pre post, s = pre ++ sub ++ post.
Proof.
  induction s as [|d s IH].
  - cbn [JsString.includes]. rewrite orb_false_r, startsWith_prefix. split.
    + intros [post H]. exists [], post. exact H.
    + intros (pre & post & H). destruct pre; simpl in H.
      * exists post. exact H.
      * discriminate.
  - cbn [JsString.includes]. rewrite orb_true_iff, startsWith_prefix, IH. split.
    + intros [[post H]|(pre & post & H)].
      * exists [], post. exact H.
      * exists (d :: pre), post. simpl. rewrite H. reflexivity.
    + intros (pre & post & H). destruct pre as [|c pre]; simpl in H.
      * left. exists post. exact H.
      * right. injection H as _ H. exists pre, post. exact H.
Qed.

(** ** The further properties at concrete inputs *)

Lemma storeTotal_bounds_witness :
  (forall item q, In item exampleList -> In q (ShoppingItem.prices item) ->
                  0 <= StorePrice.price q)
  /\ 0 <= StoreTotal.totalCost (storeTotal exampleList (str "A")).
Proof.
  assert (Hp : forall item q, In item exampleList ->
                              In q (ShoppingItem.prices item) ->
                              0 <= StorePrice.price q).
  { intros item q [<-|[<-|[]]]; simpl; intuition (subst; simpl; lia). }
  split; [exact Hp|].
  exact (proj2 (proj2 (storeTotal_bounds exampleList (str "A"))) Hp).
Defined.

Lemma store_without_stock_ranks_last_witness :
  (forall item q,
      In item soldOutList -> In q (ShoppingItem.prices item) ->
      StorePrice.storeName q = str "C" -> StorePrice.inStock q = false)
  /\ storeTotal soldOutList (str "C") = StoreTotal.mk (str "C") 0 2.
Proof.
  assert (H : forall item q,
             In item soldOutList -> In q (ShoppingItem.prices item) ->
             StorePrice.storeName q = str "C" -> StorePrice.inStock q = false).
  { intros item q [<-|[<-|[]]]; simpl; intuition (subst; try reflexivity);
      discriminate. }
  split; [exact H|].
  exact (proj1 (store_without_stock_ranks_last soldOutList (str "C") H)).
Defined.

Lemma universe_ignores_item_order_witness :
  Permutation exampleList exampleSwapped
  /\ allStoreNames exampleList = allStoreNames exampleSwapped.
Proof.
  assert (H : Permutation exampleList exampleSwapped) by apply Permutation_rev.
  split; [exact H|].
  exact (proj1 (universe_ignores_item_order _ _ H)).
Defined.

Lemma winner_is_optimal_witness :
  winner exampleList = Some (StoreTotal.mk (str "B") 230 0)
  /\ In (str "B") (allStoreNames exampleList).
Proof.
  assert (H : winner exampleList = Some (StoreTotal.mk (str "B") 230 0))
    by reflexivity.
  split; [exact H|].
  exact (proj1 (proj2 (winner_is_optimal exampleList) _ H)).
Defined.

Lemma comparison_view_cards_witness :
  exists banner cards header rows,
    PriceParser READY exampleList = Ok (ComparisonView banner cards header rows)
    /\ map Card.total cards = sortedStores exampleList.
Proof.
  do 4 eexists. split; [reflexivity|].
  refine (proj1 (comparison_view_cards READY exampleList _ _ _ _ _)).
  reflexivity.
Defined.

Lemma banner_reports_winner_witness :
  exists banner cards header rows,
    PriceParser READY exampleList = Ok (ComparisonView banner cards header rows)
    /\ (Banner.notFound banner = None <->
        forall item, In item exampleList ->
                     covered (Banner.recommended banner) item = true).
Proof.
  do 4 eexists. split; [reflexivity|].
  refine (proj1 (proj2 (banner_reports_winner READY exampleList _ _ _ _ _))).
  reflexivity.
Defined.

Lemma prices_tab_raises_iff_witness :
  (exists data,
      Ok (Some noQuotes) = Ok (Some data) /\ data <> []
      /\ forall p, In p data -> ParsedItem.prices p = [])
  /\ exists e,
      App.pricesTab (App.endParsing (Ok (Some noQuotes)) App.init) = Throw e.
Proof.
  assert (H : exists data,
             @Ok (option (list ParsedItem.t)) (Some noQuotes) = Ok (Some data)
             /\ data <> []
             /\ forall p, In p data -> ParsedItem.prices p = []).
  { exists noQuotes. split; [reflexivity|]. split; [discriminate|].
    intros p [<-|[]]. reflexivity. }
  split; [exact H|].
  exact (proj2 (proj1 (prices_tab_raises_iff (Ok (Some noQuotes)) planNone
                         App.init)) H).
Defined.

Lemma session_keeps_best_prices_fresh_witness :
  forallb schemaEvent
    [App.PlanUpdated planOne; App.ParsingStarted;
     App.ParsingEnded (Ok (Some exampleData))] = true
  /\ forall item,
      In item
        (App.shoppingList
           (App.run [App.PlanUpdated planOne; App.ParsingStarted;
                     App.ParsingEnded (Ok (Some exampleData))] App.init)) ->
      ShoppingItem.bestPrice item = liveBest item.
Proof.
  assert (H : forallb schemaEvent
                [App.PlanUpdated planOne; App.ParsingStarted;
                 App.ParsingEnded (Ok (Some exampleData))] = true)
    by reflexivity.
  split; [exact H|].
  intros item Hi.
  exact (proj1 (proj1 (session_keeps_best_prices_fresh _ H) item Hi)).
Defined.

Lemma row_highlighted_iff_in_stock_witness :
  In exampleItem [exampleItem]
  /\ uniqueStores exampleItem
  /\ rowHighlighted (allStoreNames [exampleItem]) exampleItem = true.
Proof.
  assert (Hin : In exampleItem [exampleItem]) by (left; reflexivity).
  split; [exact Hin|]. split; [exact exampleItem_unique|].
  apply (proj2 (row_highlighted_iff_in_stock [exampleItem] exampleItem Hin)
           exampleItem_unique).
  reflexivity.
Defined.

Lemma stored_best_store_is_highlighted_witness :
  NoDup (map StorePrice.storeName (ParsedItem.prices exampleParsed))
  /\ existsb StorePrice.inStock (ParsedItem.prices exampleParsed) = true
  /\ ShoppingItem.bestStore (postProcess exampleParsed) = Some (str "Z")
  /\ isBest (postProcess exampleParsed) (str "Z") = true.
Proof.
  assert (Hu : NoDup (map StorePrice.storeName (ParsedItem.prices exampleParsed)))
    by exact exampleItem_unique.
  assert (Hin : In (postProcess exampleParsed) [postProcess exampleParsed])
    by (left; reflexivity).
  assert (Hs : ShoppingItem.bestStore (postProcess exampleParsed) = Some (str "Z"))
    by reflexivity.
  assert (Hex : existsb StorePrice.inStock (ParsedItem.prices exampleParsed) = true)
    by reflexivity.
  split; [exact Hu|]. split; [exact Hex|]. split; [exact Hs|].
  exact (proj1 (proj2 (stored_best_store_is_highlighted _ _ _ Hu Hex Hin Hs))).
Defined.

Lemma skeleton_ids_distinct_witness :
  AIPlanResponse.shoppingList planOne <> []
  /\ NoDup (map ShoppingItem.id
              (App.shoppingList (App.handlePlanUpdate planOne App.init))).
Proof.
  assert (H : AIPlanResponse.shoppingList planOne <> []) by discriminate.
  split; [exact H|].
  exact (proj1 (skeleton_ids_distinct planOne App.init H)).
Defined.

Lemma validation_is_idempotent_witness :
  wellShaped goodPlan /\ buildPlanData (argsOf goodPlan) = Ok goodPlan.
Proof.
  assert (H : wellShaped goodPlan) by (repeat split).
  split; [exact H|].
  exact (proj1 validation_is_idempotent goodPlan H).
Defined.

Lemma tool_call_loop_last_update_wins_witness :
  handleCalls (fun _ => Ok tt) [malformedCall; goodCall; otherCall] None
  = (Some goodPlan, Ok tt)
  /\ exists p, buildPlanData (FunctionCall.args goodCall) = Ok p
               /\ Some goodPlan = Some p.
Proof.
  assert (H : handleCalls (fun _ => Ok tt)
                ([malformedCall] ++ goodCall :: [otherCall]) None
              = (Some goodPlan, Ok tt)) by reflexivity.
  split; [exact H|].
  refine (proj1 (proj2 (tool_call_loop_last_update_wins (fun _ => Ok tt)))
            [malformedCall] goodCall [otherCall] None (Some goodPlan) tt _ _ H).
  - reflexivity.
  - intros c' [<-|[]]. reflexivity.
Defined.

Lemma key_modal_never_stores_key_witness :
  KeyModal.showKeyModal (KeyModal.mk None []) = true
  /\ KeyModal.onClick (KeyModal.mk None []) = KeyModal.mk None []
  /\ getAi None = Throw ApiError
  /\ App.status
       (App.handleStartParsing
          (priceRequest
             (KeyModal.envKey
                (KeyModal.run [KeyModal.Typed (str "AIzaSyExampleKey0123");
                               KeyModal.Clicked]
                   (KeyModal.mk None [])))
             (Ok (Some exampleData))) App.init) = ERROR.
Proof.
  assert (Hs : KeyModal.showKeyModal (KeyModal.mk None []) = true) by reflexivity.
  assert (Hk : getAi None = Throw ApiError) by reflexivity.
  destruct key_modal_never_stores_key as (_ & Hclick & _ & Herr).
  split; [exact Hs|]. split; [exact (Hclick _ Hs)|]. split; [exact Hk|].
  exact (proj1 (Herr _ None (Ok (Some exampleData)) App.init Hk)).
Defined.
